(** * Expense tracker: the service layer over a relational store

    A shallow embedding of [app/models], [app/schemas], [app/exceptions]
    and [app/services] of the expense tracker, with the properties of the
    services stated and proved over it.

    Modelling conventions.
    - Python [int] is [Z]; [str] is [string] (a sequence of one-byte
      characters); [date] is its proleptic ordinal, a [Z]; [Optional[T]]
      is [option T].
    - A table is the list of its rows in row-id order.  The engine assigns
      [1 + max id] to a new row (an INTEGER PRIMARY KEY without
      AUTOINCREMENT), enforces NOT NULL and the UNIQUE constraint on
      [categories.name], and runs the ORM cascade on [Category.expenses].
    - A [Numeric(10, 2)] column holds an integer number of hundredths.
    - The [created_at] / [updated_at] columns are filled in by column
      defaults of the engine and are never read or written by a service;
      they are left out of the rows.
    - Every service call runs in a session of its own (see
      [app/database.get_db]), so what a call reads is the committed state.
      A service is a computation in the monad [M]: it takes the store and
      returns either a value or the exception it raised, together with the
      store it leaves behind. *)

From Stdlib Require Import ZArith Lia Ascii String.
From stdpp Require Import base tactics option list numbers strings.

Local Open Scope Z_scope.

(** ** app/exceptions.py *)

Inductive Exception : Type :=
  | EntityNotFoundException (entity_name : string) (entity_id : option Z)
  | ValidationException (field reason : string)
  | DuplicateEntityException (entity_name field : string) (value : option string)
  (* raised by the libraries underneath, not domain errors *)
  | IntegrityError
  | MultipleResultsFound
  | TypeError.

Definition not_found (entity_name : string) (entity_id : option Z) : Exception :=
  EntityNotFoundException entity_name entity_id.

Definition invalid_data (field reason : string) : Exception :=
  ValidationException field reason.

Definition duplicate (entity_name field : string) (value : option string) : Exception :=
  DuplicateEntityException entity_name field value.

(** HTTP status carried by each exception class. *)
Definition status_code (e : Exception) : Z :=
  match e with
  | EntityNotFoundException _ _ => 404
  | ValidationException _ _ => 400
  | DuplicateEntityException _ _ _ => 409
  | IntegrityError | MultipleResultsFound | TypeError => 500
  end.

(** ** decimal.Decimal

    A finite decimal is [coefficient * 10 ^ exponent]; the sign is carried
    by the coefficient. *)

Record Decimal : Type := mkDecimal { coefficient : Z; exponent : Z }.

(** [d <= 0] and [d > 0] on decimals. *)
Definition Decimal_le_0 (d : Decimal) : bool := coefficient d <=? 0.
Definition Decimal_gt_0 (d : Decimal) : bool := 0 <? coefficient d.

Fixpoint strip_zeros (fuel : nat) (c e : Z) : Z * Z :=
  match fuel with
  | O => (c, e)
  | S fuel' => if c mod 10 =? 0 then strip_zeros fuel' (c / 10) (e + 1) else (c, e)
  end.

(** [Decimal.normalize]: trailing zeros of the coefficient are removed;
    zero becomes [Decimal("0")].  A non-zero coefficient has fewer
    trailing zeros than binary digits, which bounds the loop. *)
Definition normalize (d : Decimal) : Decimal :=
  if coefficient d =? 0 then mkDecimal 0 0
  else
    let '(c, e) := strip_zeros (S (Z.to_nat (Z.log2 (Z.abs (coefficient d)))))
                               (coefficient d) (exponent d) in
    mkDecimal c e.

(** Digits after the decimal point, as read off [as_tuple()]. *)
Definition decimals (d : Decimal) : Z :=
  if 0 <=? exponent d then 0 else - exponent d.

Definition round_half_even (n d : Z) : Z :=
  let q := n / d in
  let r := n mod d in
  if 2 * r <? d then q
  else if d <? 2 * r then q + 1
  else if Z.even q then q else q + 1.

(** The value bound to a [Numeric(10, 2)] column, in hundredths.  Amounts
    with at most two decimal places are stored as they are; beyond that the
    engine rounds to the nearest hundredth. *)
Definition to_numeric_2 (d : Decimal) : Z :=
  if 0 <=? exponent d + 2 then coefficient d * 10 ^ (exponent d + 2)
  else round_half_even (coefficient d) (10 ^ (- (exponent d + 2))).

(** ** app/models *)

Record Category : Type := mkCategory {
  Category_id : Z;
  Category_name : string;
  Category_description : option string;
  Category_icon : option string;
  Category_color : option string;
}.

Record Expense : Type := mkExpense {
  Expense_id : Z;
  Expense_amount : Z;                   (* Numeric(10, 2), in hundredths *)
  Expense_description : string;
  Expense_expense_date : Z;
  Expense_category_id : Z;
  Expense_notes : option string;
}.

#[global] Instance Decimal_eq_dec : EqDecision Decimal.
Proof. solve_decision. Defined.
#[global] Instance Category_eq_dec : EqDecision Category.
Proof. solve_decision. Defined.
#[global] Instance Expense_eq_dec : EqDecision Expense.
Proof. solve_decision. Defined.

(** The persistent store: the two tables. *)
Record Store : Type := mkStore {
  categories : list Category;
  expenses : list Expense;
}.

Definition empty_store : Store := mkStore [] [].

(** ** app/schemas

    The create payloads carry every field.  An update payload is what
    [model_dump(exclude_unset=True)] yields: a field is absent ([None]),
    or present with a value that may itself be null ([Some None]). *)

Record CategoryCreate : Type := mkCategoryCreate {
  CategoryCreate_name : string;
  CategoryCreate_description : option string;
  CategoryCreate_icon : option string;
  CategoryCreate_color : option string;
}.

Record CategoryUpdate : Type := mkCategoryUpdate {
  CategoryUpdate_name : option (option string);
  CategoryUpdate_description : option (option string);
  CategoryUpdate_icon : option (option string);
  CategoryUpdate_color : option (option string);
}.

Record ExpenseCreate : Type := mkExpenseCreate {
  ExpenseCreate_amount : Decimal;
  ExpenseCreate_description : string;
  ExpenseCreate_expense_date : Z;
  ExpenseCreate_category_id : Z;
  ExpenseCreate_notes : option string;
}.

Record ExpenseUpdate : Type := mkExpenseUpdate {
  ExpenseUpdate_description : option (option string);
  ExpenseUpdate_amount : option (option Decimal);
  ExpenseUpdate_expense_date : option (option Z);
  ExpenseUpdate_category_id : option (option Z);
  ExpenseUpdate_notes : option (option string);
}.


(** *** Field constraints

    [gt=0] compares the value.  [decimal_places=2] rejects a decimal when
    the number of decimal places exceeds 2 both as written and after
    [normalize()], so trailing zeros do not count. *)

Definition check_decimal_places (places : Z) (d : Decimal) : bool :=
  negb ((places <? decimals d) && (places <? decimals (normalize d))).

Definition check_length (min_length max_length : nat) (s : string) : bool :=
  (min_length <=? String.length s)%nat && (String.length s <=? max_length)%nat.

(** A constraint on an [Optional] field is applied to non-null values. *)
Definition check_optional {A : Type} (check : A → bool) (v : option A) : bool :=
  match v with
  | None => true
  | Some a => check a
  end.

(** A field of an update payload that was not supplied keeps its default
    and is not validated. *)
Definition check_supplied {A : Type} (check : A → bool) (v : option (option A)) : bool :=
  match v with
  | None => true
  | Some a => check_optional check a
  end.

(** [amount: Decimal = Field(..., gt=0, decimal_places=2)] *)
Definition amount_field (d : Decimal) : bool :=
  Decimal_gt_0 d && check_decimal_places 2 d.


(** [ExpenseUpdate] *)
Definition ExpenseUpdate_valid (data : ExpenseUpdate) : bool :=
  check_supplied (check_length 1 255) (ExpenseUpdate_description data)
  && check_supplied amount_field (ExpenseUpdate_amount data)
  && check_supplied (λ k, 0 <? k) (ExpenseUpdate_category_id data)
  && check_supplied (check_length 0 500) (ExpenseUpdate_notes data).

(** ** The session

    [M A] is a service computation: from the store to the value returned
    or the exception raised, and the store left behind. *)

Definition M (A : Type) : Type := Store → (Exception + A) * Store.

#[global] Instance M_ret : MRet M := λ A a st, (inr a, st).

#[global] Instance M_bind : MBind M := λ A B f m st,
  match m st with
  | (inl e, st') => (inl e, st')
  | (inr a, st') => f a st'
  end.

Definition raise {A : Type} (e : Exception) : M A := λ st, (inl e, st).

(** A read of the store. *)
Definition query {A : Type} (q : Store → A) : M A := λ st, (inr (q st), st).

(** What a computation returned and what it left in the store. *)
Definition outcome {A : Type} (r : (Exception + A) * Store) : Exception + A := r.1.
Definition store_after {A : Type} (r : (Exception + A) * Store) : Store := r.2.

(** The row id the engine gives to the next insert. *)
Definition next_id (ids : list Z) : Z := 1 + foldr Z.max 0 ids.

(** Lookup of a row by primary key. *)
Definition lookup_by {A : Type} (key : A → Z) (k : Z) (rows : list A) : option A :=
  snd <$> list_find (λ r, key r = k) rows.

(** [db.get(Category, ident)]; a null key loads nothing. *)
Definition get_Category (ident : option Z) : M (option Category) :=
  query (λ st, match ident with
               | Some k => lookup_by Category_id k (categories st)
               | None => None
               end).

Definition get_Expense (ident : option Z) : M (option Expense) :=
  query (λ st, match ident with
               | Some k => lookup_by Expense_id k (expenses st)
               | None => None
               end).

(** [result.scalar_one_or_none()] *)
Definition scalar_one_or_none {A : Type} (rows : list A) : M (option A) :=
  match rows with
  | [] => mret None
  | [r] => mret (Some r)
  | _ => raise MultipleResultsFound
  end.

(** [select(Category).where(Category.name == name)]; comparing with a null
    renders IS NULL, which no row of a NOT NULL column satisfies. *)
Definition select_Category_by_name (name : option string) (st : Store) : list Category :=
  match name with
  | None => []
  | Some n => filter (λ c, Category_name c = n) (categories st)
  end.

(** [db.add(category); db.commit(); db.refresh(category)]: the INSERT
    fails on a name already present, otherwise the row is appended under a
    fresh id and read back. *)
Definition add_Category (data : CategoryCreate) : M Category := λ st,
  if decide (CategoryCreate_name data ∈ Category_name <$> categories st)
  then (inl IntegrityError, st)
  else
    let c := mkCategory (next_id (Category_id <$> categories st))
                        (CategoryCreate_name data) (CategoryCreate_description data)
                        (CategoryCreate_icon data) (CategoryCreate_color data) in
    (inr c, mkStore (categories st ++ [c]) (expenses st)).

Definition add_Expense (data : ExpenseCreate) : M Expense := λ st,
  let e := mkExpense (next_id (Expense_id <$> expenses st))
                     (to_numeric_2 (ExpenseCreate_amount data))
                     (ExpenseCreate_description data)
                     (ExpenseCreate_expense_date data)
                     (ExpenseCreate_category_id data)
                     (ExpenseCreate_notes data) in
  (inr e, mkStore (categories st) (expenses st ++ [e])).

(** [setattr(obj, key, value)] on one attribute: an absent key leaves the
    attribute alone. *)
Definition set_nullable {A : Type} (v : option (option A)) (old : option A) : option A :=
  match v with
  | None => old
  | Some a => a
  end.

(** For a NOT NULL column the attribute may hold a null until the flush. *)
Definition set_required {A : Type} (v : option (option A)) (old : A) : option A :=
  match v with
  | None => Some old
  | Some a => a
  end.

(** A decimal attribute as its column receives it. *)
Definition to_column (a : option Decimal) : option Z :=
  match a with
  | None => None
  | Some d => Some (to_numeric_2 d)
  end.

(** [for key, value in update_data.items(): setattr(category, key, value)]
    followed by the flush of [db.commit()], which refuses a null in a NOT
    NULL column. *)
Definition setattr_Category (update_data : CategoryUpdate) (c : Category) : option Category :=
  name ← set_required (CategoryUpdate_name update_data) (Category_name c);
  Some (mkCategory (Category_id c) name
          (set_nullable (CategoryUpdate_description update_data) (Category_description c))
          (set_nullable (CategoryUpdate_icon update_data) (Category_icon c))
          (set_nullable (CategoryUpdate_color update_data) (Category_color c))).

Definition setattr_Expense (update_data : ExpenseUpdate) (e : Expense) : option Expense :=
  description ← set_required (ExpenseUpdate_description update_data) (Expense_description e);
  amount ← set_required (to_column <$> ExpenseUpdate_amount update_data) (Expense_amount e);
  expense_date ← set_required (ExpenseUpdate_expense_date update_data) (Expense_expense_date e);
  category_id ← set_required (ExpenseUpdate_category_id update_data) (Expense_category_id e);
  Some (mkExpense (Expense_id e) amount description expense_date category_id
          (set_nullable (ExpenseUpdate_notes update_data) (Expense_notes e))).

(** The UPDATE of one row, in place. *)
Definition replace_by {A : Type} (key : A → Z) (r' : A) (rows : list A) : list A :=
  (λ r, if decide (key r = key r') then r' else r) <$> rows.

(** [setattr ...; db.commit(); db.refresh(category)].  The flush refuses a
    null in a NOT NULL column; an object left with the values it was loaded
    with is not written at all; otherwise the row is updated, unless the
    new name is the name of another row. *)
Definition commit_Category (update_data : CategoryUpdate) (c : Category) : M Category := λ st,
  match setattr_Category update_data c with
  | None => (inl IntegrityError, st)
  | Some c' =>
      if decide (c' = c) then (inr c, st)
      else if decide (Exists (λ o, Category_name o = Category_name c'
                                   ∧ Category_id o ≠ Category_id c') (categories st))
      then (inl IntegrityError, st)
      else (inr c', mkStore (replace_by Category_id c' (categories st)) (expenses st))
  end.

Definition commit_Expense (update_data : ExpenseUpdate) (e : Expense) : M Expense := λ st,
  match setattr_Expense update_data e with
  | None => (inl IntegrityError, st)
  | Some e' =>
      if decide (e' = e) then (inr e, st)
      else (inr e', mkStore (categories st) (replace_by Expense_id e' (expenses st)))
  end.

(** [db.delete(category); db.commit()]: the relationship
    [Category.expenses] has [cascade="all, delete-orphan"], so the
    expenses of the category are deleted with it. *)
Definition delete_Category (c : Category) : M unit := λ st,
  (inr (), mkStore (filter (λ o, Category_id o ≠ Category_id c) (categories st))
                   (filter (λ e, Expense_category_id e ≠ Category_id c) (expenses st))).

Definition delete_Expense (e : Expense) : M unit := λ st,
  (inr (), mkStore (categories st)
                   (filter (λ o, Expense_id o ≠ Expense_id e) (expenses st))).

(** ** SQL expressions used by the queries *)

(** [func.sum]: the sum of a column, null over no rows. *)
Definition sql_sum (column : list Z) : option Z :=
  match column with
  | [] => None
  | _ => Some (foldr Z.add 0 column)
  end.

(** [func.coalesce(x, y)] *)
Definition coalesce {A : Type} (x : option A) (y : A) : A :=
  match x with
  | Some a => a
  | None => y
  end.

(** [func.count(column)]: the number of non-null values. *)
Definition sql_count {A : Type} (column : list (option A)) : Z :=
  Z.of_nat (length (filter is_Some column)).

(** A numeric result read back as a [Decimal] with two places. *)
Definition of_numeric_2 (hundredths : Z) : Decimal := mkDecimal hundredths (-2).

(** [lower()]: the letters A to Z are mapped to a to z. *)
Definition lower_ascii (c : ascii) : ascii :=
  let n := nat_of_ascii c in
  if ((65 <=? n) && (n <=? 90))%nat then ascii_of_nat (n + 32) else c.

Definition lower (s : list ascii) : list ascii := lower_ascii <$> s.

Definition percent : ascii := "%"%char.
Definition underscore : ascii := "_"%char.

(** [%] in a pattern: the rest of the pattern matches the text from some
    position on. *)
Fixpoint skip_any (rest : list ascii → bool) (text : list ascii) : bool :=
  rest text || match text with
               | [] => false
               | _ :: text' => skip_any rest text'
               end.

(** [text LIKE pattern]: [%] stands for any run of characters, [_] for
    any one character, every other character for itself. *)
Fixpoint like (pattern text : list ascii) {struct pattern} : bool :=
  match pattern with
  | [] => match text with [] => true | _ :: _ => false end
  | p :: pattern' =>
      if decide (p = percent) then skip_any (like pattern') text
      else
        match text with
        | [] => false
        | c :: text' =>
            (bool_decide (p = underscore) || bool_decide (p = c)) && like pattern' text'
        end
  end.

(** [column.ilike(pattern)], rendered as [lower(column) LIKE lower(pattern)]. *)
Definition ilike (column pattern : string) : bool :=
  like (lower (list_ascii_of_string pattern)) (lower (list_ascii_of_string column)).

(** [a.outerjoin(b, on)]: every row of [a] with each matching row of [b],
    or once with nulls when none matches. *)
Definition outerjoin {A B : Type} (on : A → B → bool) (a : list A) (b : list B)
  : list (A * option B) :=
  a ≫= λ x, match filter (λ y, on x y = true) b with
            | [] => [(x, None)]
            | ys => (λ y, (x, Some y)) <$> ys
            end.

(** [.group_by(key)]: the rows sharing a key form one group, one group
    for each key among the rows.  (Without ORDER BY the order of the
    groups is the engine's; here it is the order in which the keys occur
    last.) *)
Definition group_by {A : Type} (key : A → Z) (rows : list A) : list (list A) :=
  (λ k, filter (λ r, key r = k) rows) <$> remove_dups (key <$> rows).

(** ** app/services/category_service.py *)

Definition get_all_categories : M (list Category) := query categories.

Definition get_category_by_id (category_id : Z) : M Category :=
  category ← get_Category (Some category_id);
  match category with
  | None => raise (not_found "Category" (Some category_id))
  | Some c => mret c
  end.

Definition get_category_by_name (name : option string) : M (option Category) :=
  result ← query (select_Category_by_name name);
  scalar_one_or_none result.

Definition create_category (category_data : CategoryCreate) : M Category :=
  existing ← get_category_by_name (Some (CategoryCreate_name category_data));
  match existing with
  | Some _ => raise (duplicate "Category" "name" (Some (CategoryCreate_name category_data)))
  | None => add_Category category_data
  end.

Definition update_category (category_id : Z) (category_data : CategoryUpdate) : M Category :=
  category ← get_category_by_id category_id;
  let update_data := category_data in
  _ ← match CategoryUpdate_name update_data with
      | Some name =>
          existing ← get_category_by_name name;
          match existing with
          | Some other =>
              if decide (Category_id other ≠ category_id)
              then raise (duplicate "Category" "name" name)
              else mret ()
          | None => mret ()
          end
      | None => mret ()
      end;
  commit_Category update_data category.

Definition delete_category (category_id : Z) : M bool :=
  category ← get_category_by_id category_id;
  _ ← delete_Category category;
  mret true.

Definition get_category_statistics : M Z :=
  query (λ st, sql_count (Some ∘ Category_id <$> categories st)).

Definition get_categories_with_expense_count : M (list (Category * Z)) :=
  query (λ st,
    let joined := outerjoin (λ c e, bool_decide (Category_id c = Expense_category_id e))
                            (categories st) (expenses st) in
    let groups := group_by (λ row, Category_id row.1) joined in
    omap (M := list) (λ g : list (Category * option Expense),
            match g with
            | [] => None
            | row :: _ =>
                Some (row.1, sql_count ((λ r : Category * option Expense,
                                           Expense_id <$> r.2) <$> g))
            end) groups).

(** ** app/services/expense_service.py *)

Section ExpenseService.

(** [date.today()] at the time of the call. *)
Variable today : Z.

(** [select(Expense).offset(skip).limit(limit)]; a negative offset counts
    as none and a negative limit as no limit. *)
Definition get_all_expenses (skip limit : Z) : M (list Expense) :=
  query (λ st, let rows := drop (Z.to_nat skip) (expenses st) in
               if limit <? 0 then rows else take (Z.to_nat limit) rows).

Definition get_expense_by_id (expense_id : Z) : M Expense :=
  expense ← get_Expense (Some expense_id);
  match expense with
  | None => raise (not_found "Expense" (Some expense_id))
  | Some e => mret e
  end.

Definition create_expense (expense_data : ExpenseCreate) : M Expense :=
  category ← get_Category (Some (ExpenseCreate_category_id expense_data));
  match category with
  | None => raise (not_found "Category" (Some (ExpenseCreate_category_id expense_data)))
  | Some _ =>
      if Decimal_le_0 (ExpenseCreate_amount expense_data)
      then raise (invalid_data "amount" "must be positive")
      else if today <? ExpenseCreate_expense_date expense_data
      then raise (invalid_data "expense_date" "cannot be in the future")
      else add_Expense expense_data
  end.

(** [if "category_id" in update_data: ...] *)
Definition validate_category (update_data : ExpenseUpdate) : M unit :=
  match ExpenseUpdate_category_id update_data with
  | Some ident =>
      category ← get_Category ident;
      match category with
      | None => raise (not_found "Category" ident)
      | Some _ => mret ()
      end
  | None => mret ()
  end.

(** [if "amount" in update_data and update_data["amount"] <= 0: ...];
    ordering a null against [0] is a [TypeError]. *)
Definition validate_amount (update_data : ExpenseUpdate) : M unit :=
  match ExpenseUpdate_amount update_data with
  | Some (Some amount) =>
      if Decimal_le_0 amount then raise (invalid_data "amount" "must be positive")
      else mret ()
  | Some None => raise TypeError
  | None => mret ()
  end.

(** [if "expense_date" in update_data and update_data["expense_date"] > date.today(): ...] *)
Definition validate_date (update_data : ExpenseUpdate) : M unit :=
  match ExpenseUpdate_expense_date update_data with
  | Some (Some expense_date) =>
      if today <? expense_date
      then raise (invalid_data "expense_date" "cannot be in the future")
      else mret ()
  | Some None => raise TypeError
  | None => mret ()
  end.

Definition update_expense (expense_id : Z) (expense_data : ExpenseUpdate) : M Expense :=
  expense ← get_expense_by_id expense_id;
  let update_data := expense_data in
  _ ← validate_category update_data;
  _ ← validate_amount update_data;
  _ ← validate_date update_data;
  commit_Expense update_data expense.

Definition delete_expense (expense_id : Z) : M bool :=
  expense ← get_expense_by_id expense_id;
  _ ← delete_Expense expense;
  mret true.

Definition get_expenses_by_category (category_id : Z) : M (list Expense) :=
  query (λ st, filter (λ e, Expense_category_id e = category_id) (expenses st)).

Definition get_expenses_by_date_range (start_date end_date : Z) : M (list Expense) :=
  query (λ st, filter (λ e, start_date ≤ Expense_expense_date e
                            ∧ Expense_expense_date e ≤ end_date) (expenses st)).

Definition get_total_expense_amount : M Decimal :=
  total ← query (λ st, coalesce (sql_sum (Expense_amount <$> expenses st)) 0);
  mret (of_numeric_2 total).

Definition search_expenses (keyword : string) : M (list Expense) :=
  query (λ st, filter (λ e, ilike (Expense_description e) ("%" ++ keyword ++ "%") = true)
                      (expenses st)).

Definition get_expense_statistics : M Z :=
  query (λ st, sql_count (Some ∘ Expense_id <$> expenses st)).

End ExpenseService.

(** ** Store states

    The constraints the engine keeps on every committed state: primary keys
    are unique in each table, and so are category names. *)

Record store_wf (st : Store) : Prop := {
  wf_Category_id : NoDup (Category_id <$> categories st);
  wf_Category_name : NoDup (Category_name <$> categories st);
  wf_Expense_id : NoDup (Expense_id <$> expenses st);
}.

(** No expense is left without its category. *)
Definition store_fk (st : Store) : Prop :=
  ∀ e, e ∈ expenses st → Expense_category_id e ∈ Category_id <$> categories st.

(** ** Partial updates

    [field_applied v old new]: the attribute holds the supplied value when
    the payload sets the field, and its old value when it does not. *)

Definition field_applied {A : Type} (v : option (option A)) (old new : option A) : Prop :=
  match v with
  | None => new = old
  | Some a => new = a
  end.

Record Category_updated (data : CategoryUpdate) (c c' : Category) : Prop := {
  updated_Category_id : Category_id c' = Category_id c;
  updated_Category_name :
    field_applied (CategoryUpdate_name data) (Some (Category_name c)) (Some (Category_name c'));
  updated_Category_description :
    field_applied (CategoryUpdate_description data) (Category_description c)
                  (Category_description c');
  updated_Category_icon :
    field_applied (CategoryUpdate_icon data) (Category_icon c) (Category_icon c');
  updated_Category_color :
    field_applied (CategoryUpdate_color data) (Category_color c) (Category_color c');
}.

Record Expense_updated (data : ExpenseUpdate) (e e' : Expense) : Prop := {
  updated_Expense_id : Expense_id e' = Expense_id e;
  updated_Expense_description :
    field_applied (ExpenseUpdate_description data) (Some (Expense_description e))
                  (Some (Expense_description e'));
  updated_Expense_amount :
    field_applied (to_column <$> ExpenseUpdate_amount data) (Some (Expense_amount e))
                  (Some (Expense_amount e'));
  updated_Expense_expense_date :
    field_applied (ExpenseUpdate_expense_date data) (Some (Expense_expense_date e))
                  (Some (Expense_expense_date e'));
  updated_Expense_category_id :
    field_applied (ExpenseUpdate_category_id data) (Some (Expense_category_id e))
                  (Some (Expense_category_id e'));
  updated_Expense_notes :
    field_applied (ExpenseUpdate_notes data) (Expense_notes e) (Expense_notes e');
}.

(** ** Aggregates, as the specification words them *)

(** The number of expenses whose [category_id] is [k]. *)
Definition expense_count (k : Z) (st : Store) : Z :=
  Z.of_nat (length (filter (λ e, Expense_category_id e = k) (expenses st))).


(** ** Substrings, as the specification words them *)

(** [k] occurs in [s] as a run of consecutive characters. *)
Definition contains (k s : list ascii) : Prop := ∃ pre post, s = pre ++ k ++ post.

Fixpoint starts_with (k s : list ascii) : bool :=
  match k, s with
  | [], _ => true
  | _ :: _, [] => false
  | a :: k', b :: s' => bool_decide (a = b) && starts_with k' s'
  end.

Fixpoint containsb (k s : list ascii) : bool :=
  starts_with k s || match s with
                     | [] => false
                     | _ :: s' => containsb k s'
                     end.

(** Containment without regard to the case of the letters. *)
Definition contains_ci (keyword description : string) : Prop :=
  contains (lower (list_ascii_of_string keyword))
           (lower (list_ascii_of_string description)).

(** A keyword without the two characters that LIKE reads as wildcards. *)
Definition wildcard_free (keyword : string) : Prop :=
  (percent ∉ list_ascii_of_string keyword) ∧ (underscore ∉ list_ascii_of_string keyword).

(** ** Decimal values *)

(** Two decimals with the same value: equal coefficients once both are
    written with the smaller of the two exponents. *)
Definition Decimal_eqv (a b : Decimal) : Prop :=
  let m := Z.min (exponent a) (exponent b) in
  coefficient a * 10 ^ (exponent a - m) = coefficient b * 10 ^ (exponent b - m).

(** ** Sample data *)

Definition sample_categories : list Category :=
  [mkCategory 1 "Food" (Some "Groceries, restaurants, snacks") (Some "fas fa-utensils")
              (Some "#FF6B6B");
   mkCategory 2 "Transport" None None None].

Definition sample_lunch : Expense := mkExpense 1 2550 "Lunch" 739000 1 (Some "Had a sandwich").

Definition sample_store : Store := mkStore sample_categories [sample_lunch].

(** The payload of [test_create_expense_invalid_category]. *)
Definition sample_create : ExpenseCreate :=
  mkExpenseCreate (mkDecimal 1000 (-2)) "InvalidCat" 739000 9999 (Some "Invalid category test").

Definition sample_expense (amount : Z) (description notes : string) : ExpenseCreate :=
  mkExpenseCreate (mkDecimal amount (-2)) description 739000 1 (Some notes).


(** The day of the sample calls. *)
Definition sample_today : Z := 739000.

(** A payload that is wrong in every respect: no such category, a
    negative amount, a date after [sample_today]. *)
Definition sample_create_invalid : ExpenseCreate :=
  mkExpenseCreate (mkDecimal (-5) 0) "Refund" 739010 9999 None.


(** A rename that also clears the icon. *)
Definition sample_rename (name : string) : CategoryUpdate :=
  mkCategoryUpdate (Some (Some name)) None (Some None) None.

(** The rows that the outer join makes of one category. *)
Definition joined_rows (es : list Expense) (c : Category) : list (Category * option Expense) :=
  match filter (λ e, bool_decide (Category_id c = Expense_category_id e) = true) es with
  | [] => [(c, None)]
  | ys => (λ y, (c, Some y)) <$> ys
  end.

(** Unfolding of the operations of [M]. *)
Ltac unfold_M :=
  unfold mbind, mret, M_bind, M_ret, raise, query, outcome, store_after in *.

(** ** What the checks of [update_expense] let through *)




(** ** app/schemas/response.py *)

Record PaginatedResponse (T : Type) : Type := mkPaginatedResponse {
  PaginatedResponse_items : list T;
  PaginatedResponse_total : Z;
  PaginatedResponse_page : Z;
  PaginatedResponse_size : Z;
  PaginatedResponse_pages : Z;
}.
Arguments mkPaginatedResponse {T} _ _ _ _ _.
Arguments PaginatedResponse_items {T} _.
Arguments PaginatedResponse_total {T} _.
Arguments PaginatedResponse_page {T} _.
Arguments PaginatedResponse_size {T} _.
Arguments PaginatedResponse_pages {T} _.

(** [page: int = Field(ge=1)], [size: int = Field(ge=1, le=100)] *)
Definition PaginatedResponse_valid {T : Type} (r : PaginatedResponse T) : bool :=
  (1 <=? PaginatedResponse_page r)
  && (1 <=? PaginatedResponse_size r) && (PaginatedResponse_size r <=? 100).

(** [PaginatedResponse.create]; [//] is the division that rounds down.
    The constructor validates the fields: [None] stands for the
    [ValidationError] it raises. *)
Definition PaginatedResponse_create {T : Type} (items : list T) (total page size : Z)
  : option (PaginatedResponse T) :=
  let pages := if 0 <? size then (total + size - 1) / size else 0 in
  let r := mkPaginatedResponse items total page size pages in
  if PaginatedResponse_valid r then Some r else None.

(** ** app/seed_data.py *)

Definition CATEGORIES : list CategoryCreate :=
  [mkCategoryCreate "Food" (Some "Groceries, restaurants, snacks") (Some "fas fa-utensils")
     (Some "#FF6B6B");
   mkCategoryCreate "Transport" (Some "Public transport, fuel, taxi") (Some "fas fa-car")
     (Some "#4ECDC4");
   mkCategoryCreate "Entertainment" (Some "Movies, concerts, games") (Some "fas fa-film")
     (Some "#45B7D1");
   mkCategoryCreate "Shopping" (Some "Clothes, gifts, online shopping")
     (Some "fas fa-shopping-bag") (Some "#96CEB4");
   mkCategoryCreate "Bills" (Some "Utilities, rent, subscriptions")
     (Some "fas fa-file-invoice") (Some "#FECA57");
   mkCategoryCreate "Health" (Some "Medicine, doctor, gym") (Some "fas fa-medkit")
     (Some "#FF9FF3")].

Definition EXPENSE_DESCRIPTIONS : list string :=
  ["Lunch at cafe"; "Bus ticket"; "Movie night"; "New shoes"; "Electricity bill";
   "Pharmacy purchase"; "Groceries"; "Taxi ride"; "Concert ticket"; "Online shopping";
   "Water bill"; "Doctor visit"; "Dinner with friends"; "Fuel refill";
   "Streaming subscription"; "Gym membership"; "Gift for friend"; "Snack"; "Train fare";
   "Game purchase"].

(** What the random generator hands out in one round of the loop over the
    expenses: the position chosen by [random.choice(category_objs)], the
    amount [round(random.uniform(5, 500), 2)] in hundredths, the position
    chosen by [random.choice(EXPENSE_DESCRIPTIONS)], and
    [random.randint(0, 29)]. *)
Record Draw : Type := mkDraw {
  Draw_category : nat;
  Draw_amount : Z;
  Draw_description : nat;
  Draw_days_ago : Z;
}.

(** The ranges of the draws of one run; [random.randint(15, 20)] rounds. *)
Definition Draw_in_range (d : Draw) : Prop :=
  (Draw_category d < length CATEGORIES)%nat
  ∧ 500 ≤ Draw_amount d ≤ 50000
  ∧ (Draw_description d < length EXPENSE_DESCRIPTIONS)%nat
  ∧ 0 ≤ Draw_days_ago d ≤ 29.

Definition draws_in_range (draws : list Draw) : Prop :=
  (15 ≤ length draws ≤ 20)%nat ∧ Forall Draw_in_range draws.

(** A unit of work that is committed once at its end: when it raises,
    nothing of it is kept. *)
Definition transaction {A : Type} (m : M A) : M A := λ st,
  match m st with
  | (inl e, _) => (inl e, st)
  | (inr a, st') => (inr a, st')
  end.

(** [for cat in CATEGORIES: db.add(Category(...))], then the refresh that
    reads the ids back. *)
Fixpoint add_categories (cats : list CategoryCreate) : M (list Category) :=
  match cats with
  | [] => mret []
  | cat :: cats' =>
      category ← add_Category cat;
      category_objs ← add_categories cats';
      mret (category :: category_objs)
  end.

(** One round of the loop over the expenses.  [random.choice] returns an
    element of its list, so the two lookups find one. *)
Definition add_seed_expense (today : Z) (category_objs : list Category) (d : Draw) : M unit :=
  match category_objs !! Draw_category d, EXPENSE_DESCRIPTIONS !! Draw_description d with
  | Some category, Some description =>
      _ ← add_Expense (mkExpenseCreate (mkDecimal (Draw_amount d) (-2)) description
                         (today - Draw_days_ago d) (Category_id category) None);
      mret ()
  | _, _ => mret ()
  end.

Fixpoint add_seed_expenses (today : Z) (category_objs : list Category) (draws : list Draw)
  : M unit :=
  match draws with
  | [] => mret ()
  | d :: draws' =>
      _ ← add_seed_expense today category_objs d;
      add_seed_expenses today category_objs draws'
  end.

Definition seed_database (today : Z) (draws : list Draw) : M unit :=
  category_count ← query (λ st, sql_count (Some ∘ Category_id <$> categories st));
  if 0 <? category_count then mret ()
  else
    category_objs ← transaction (add_categories CATEGORIES);
    transaction (add_seed_expenses today category_objs draws).

(** What the loop over the draws adds to the expenses. *)
Definition seeded_expense (today : Z) (category_objs : list Category) (e : Expense) : Prop :=
  500 ≤ Expense_amount e ≤ 50000
  ∧ today - 29 ≤ Expense_expense_date e ≤ today
  ∧ Expense_description e ∈ EXPENSE_DESCRIPTIONS
  ∧ Expense_category_id e ∈ Category_id <$> category_objs
  ∧ Expense_notes e = None.

(** ** app/schemas: the response models *)

(** [pattern=r"^#[A-Fa-f0-9]{6}$"] *)
Definition is_hex_digit (c : ascii) : bool :=
  let n := nat_of_ascii c in
  ((48 <=? n) && (n <=? 57) || (65 <=? n) && (n <=? 70) || (97 <=? n) && (n <=? 102))%nat.

Definition matches_hex_color (s : string) : bool :=
  match list_ascii_of_string s with
  | c :: digits => bool_decide (c = "#"%char) && (length digits =? 6)%nat
                   && forallb is_hex_digit digits
  | [] => false
  end.

(** [color: Optional[str] = Field(None, min_length=7, max_length=7, pattern=...)] *)
Definition color_field (s : string) : bool := check_length 7 7 s && matches_hex_color s.

Record CategoryResponse : Type := mkCategoryResponse {
  CategoryResponse_id : Z;
  CategoryResponse_name : string;
  CategoryResponse_description : option string;
  CategoryResponse_icon : option string;
  CategoryResponse_color : option string;
  CategoryResponse_expense_count : Z;
}.

(** [CategoryBase] and [expense_count: int = Field(..., ge=0)] *)
Definition CategoryResponse_valid (r : CategoryResponse) : bool :=
  check_length 1 100 (CategoryResponse_name r)
  && check_optional (check_length 0 255) (CategoryResponse_description r)
  && check_optional (check_length 0 50) (CategoryResponse_icon r)
  && check_optional color_field (CategoryResponse_color r)
  && (0 <=? CategoryResponse_expense_count r).

Record ExpenseResponse : Type := mkExpenseResponse {
  ExpenseResponse_id : Z;
  ExpenseResponse_amount : Decimal;
  ExpenseResponse_description : string;
  ExpenseResponse_expense_date : Z;
  ExpenseResponse_category_id : Z;
  ExpenseResponse_notes : option string;
  ExpenseResponse_category_name : string;
}.

(** [ExpenseBase] *)
Definition ExpenseResponse_valid (r : ExpenseResponse) : bool :=
  amount_field (ExpenseResponse_amount r)
  && check_length 1 255 (ExpenseResponse_description r)
  && (0 <? ExpenseResponse_category_id r)
  && check_optional (check_length 0 500) (ExpenseResponse_notes r).

(** ** app/routes

    A route handler runs in [R]: besides the exceptions of the services it
    may raise the [ValidationError] of a response model and the
    [HTTPException] that carries the status of the answer.  (The text of
    the detail is left out.) *)

Inductive Raised : Type :=
  | AppException (e : Exception)
  | ValidationError
  | HTTPException (status_code : Z)
  (* [decimal.InvalidOperation], [ValueError]: a form field that does not parse *)
  | ParseError.

Definition R (A : Type) : Type := Store → (Raised + A) * Store.

#[global] Instance R_ret : MRet R := λ A a st, (inr a, st).

#[global] Instance R_bind : MBind R := λ A B f m st,
  match m st with
  | (inl e, st') => (inl e, st')
  | (inr a, st') => f a st'
  end.

Definition raise_R {A : Type} (e : Raised) : R A := λ st, (inl e, st).

(** [await Service.method(db, ...)] *)
Definition await {A : Type} (m : M A) : R A := λ st,
  match m st with
  | (inl e, st') => (inl (AppException e), st')
  | (inr a, st') => (inr a, st')
  end.

(** [try: body  except ...: raise HTTPException(...)]: what is raised in
    the body is replaced by what the first matching clause raises. *)
Definition try_except {A : Type} (body : R A) (clauses : Raised → Raised) : R A := λ st,
  match body st with
  | (inl e, st') => (inl (clauses e), st')
  | (inr a, st') => (inr a, st')
  end.

(** The constructors of the response models validate their fields. *)
Definition new_CategoryResponse (category : Category) (expense_count : Z) : R CategoryResponse :=
  let r := mkCategoryResponse (Category_id category) (Category_name category)
             (Category_description category) (Category_icon category)
             (Category_color category) expense_count in
  if CategoryResponse_valid r then mret r else raise_R ValidationError.

(** [next((count for cat, count in categories_with_counts
           if cat.id == category.id), 0)] *)
Definition next_count (category : Category) (categories_with_counts : list (Category * Z)) : Z :=
  match list_find (λ row, Category_id row.1 = Category_id category) categories_with_counts with
  | Some (_, row) => row.2
  | None => 0
  end.


(** GET /api/categories/search?name=... *)
Definition search_category_by_name_route (name : string) : R CategoryResponse :=
  try_except
    (found ← await (get_category_by_name (Some name));
     match found with
     | None => raise_R (HTTPException 404)
     | Some category =>
         categories_with_counts ← await get_categories_with_expense_count;
         let expense_count := next_count category categories_with_counts in
         new_CategoryResponse category expense_count
     end)
    (λ e, match e with
          | HTTPException status_code => HTTPException status_code
          | _ => HTTPException 500
          end).

(** [ExpenseResponse(id=expense.id, amount=Decimal(str(expense.amount)), ...,
    category_name=expense.category.name if expense.category else "Uncategorized")];
    [expense.category] is the row that the foreign key references. *)
Definition ExpenseResponse_of (st : Store) (expense : Expense) : ExpenseResponse :=
  mkExpenseResponse (Expense_id expense) (of_numeric_2 (Expense_amount expense))
    (Expense_description expense) (Expense_expense_date expense)
    (Expense_category_id expense) (Expense_notes expense)
    (match lookup_by Category_id (Expense_category_id expense) (categories st) with
     | Some category => Category_name category
     | None => "Uncategorized"
     end).

Definition new_ExpenseResponse (expense : Expense) : R ExpenseResponse := λ st,
  let r := ExpenseResponse_of st expense in
  if ExpenseResponse_valid r then (inr r, st) else (inl ValidationError, st).

(** [[ExpenseResponse(...) for expense in expenses]] *)
Fixpoint new_ExpenseResponses (expenses : list Expense) : R (list ExpenseResponse) :=
  match expenses with
  | [] => mret []
  | expense :: expenses' =>
      r ← new_ExpenseResponse expense;
      rs ← new_ExpenseResponses expenses';
      mret (r :: rs)
  end.

(** GET /api/expenses/search?keyword=...&start_date=...&end_date=...
    [if keyword:] holds for a keyword that is given and not empty; a date
    that is given counts as true. *)
Definition search_expenses_route (today : Z) (keyword : option string)
    (start_date end_date : option Z) : R (list ExpenseResponse) :=
  try_except
    (let by_dates :=
       match start_date, end_date with
       | Some s, Some e => await (get_expenses_by_date_range s e)
       | Some s, None => await (get_expenses_by_date_range s today)
       | None, _ => await (get_all_expenses 0 50)
       end in
     expenses ← match keyword with
                | Some k => if bool_decide (k ≠ "") then await (search_expenses k)
                            else by_dates
                | None => by_dates
                end;
     new_ExpenseResponses expenses)
    (λ _, HTTPException 500).

(** GET /api/expenses/?page=...&size=... *)
Definition get_all_expenses_route (page size : Z) : R (list ExpenseResponse) :=
  try_except
    (let skip := (page - 1) * size in
     expenses ← await (get_all_expenses skip size);
     new_ExpenseResponses expenses)
    (λ _, HTTPException 500).

(** The body of an answer, nothing for an error. *)
Definition body_of {A : Type} (r : (Raised + list A) * Store) : list A :=
  match r.1 with
  | inr l => l
  | inl _ => []
  end.

(** The bodies of the pages 1 to [n], one after the other. *)
Fixpoint pages_through (n : nat) (size : Z) (st : Store) : list ExpenseResponse :=
  match n with
  | O => []
  | S n' => pages_through n' size st
            ++ body_of (get_all_expenses_route (Z.of_nat (S n')) size st)
  end.

(** *** The pages of the web forms

    [try: body  except ...: handler]: the handler runs in place of what the
    body raised. *)
Definition try_catch {A : Type} (body : R A) (handler : Raised → R A) : R A := λ st,
  match body st with
  | (inl e, st') => handler e st'
  | (inr a, st') => (inr a, st')
  end.

Inductive Page : Type :=
  | RedirectResponse (url : string)
  | TemplateResponse (name : string).

(** [ExpenseUpdate(amount=..., description=..., expense_date=...,
    category_id=..., notes=...)]: every field is passed, so every field is
    set, to the value or to null; the constructor validates them. *)
Definition new_ExpenseUpdate (amount : option Decimal) (description : option string)
    (expense_date category_id : option Z) (notes : option string) : R ExpenseUpdate :=
  let data := mkExpenseUpdate (Some description) (Some amount) (Some expense_date)
                (Some category_id) (Some notes) in
  if ExpenseUpdate_valid data then mret data else raise_R ValidationError.

Section WebRoutes.

(** [Decimal(text)] and [date.fromisoformat(text)] of the libraries; [None]
    for a text that they refuse. *)
Variable Decimal_of_str : string → option Decimal.
Variable fromisoformat : string → option Z.

(** [parser(field) if field else None] *)
Definition parse_field {A : Type} (parser : string → option A) (field : option string)
  : R (option A) :=
  match field with
  | Some text =>
      if bool_decide (text ≠ "") then
        match parser text with
        | Some a => mret (Some a)
        | None => raise_R ParseError
        end
      else mret None
  | None => mret None
  end.

(** POST /expenses/{expense_id}/edit *)
Definition update_expense_form (today expense_id : Z) (amount description expense_date
    : option string) (category_id : option Z) (notes : option string) : R Page :=
  try_catch
    (parsed_amount ← parse_field Decimal_of_str amount;
     parsed_date ← parse_field fromisoformat expense_date;
     expense_data ← new_ExpenseUpdate parsed_amount description parsed_date category_id notes;
     _ ← await (update_expense today expense_id expense_data);
     mret (RedirectResponse "/expenses"))
    (λ e, match e with
          | AppException (EntityNotFoundException _ _)
          | AppException (ValidationException _ _) =>
              expense ← await (get_expense_by_id expense_id);
              categories ← await get_all_categories;
              mret (TemplateResponse "expenses/form.html")
          | _ => mret (TemplateResponse "error.html")
          end).

End WebRoutes.

(** A form field that was left out or left empty. *)
Definition left_empty (field : option string) : Prop := field = None ∨ field = Some "".

(** ** Rows that the response models accept *)

Definition Category_presentable (c : Category) : Prop :=
  CategoryResponse_valid
    (mkCategoryResponse (Category_id c) (Category_name c) (Category_description c)
       (Category_icon c) (Category_color c) 0) = true.

Definition Expense_presentable (e : Expense) : Prop :=
  ExpenseResponse_valid
    (mkExpenseResponse (Expense_id e) (of_numeric_2 (Expense_amount e))
       (Expense_description e) (Expense_expense_date e) (Expense_category_id e)
       (Expense_notes e) "") = true.

(** The answer of the category routes for a stored category. *)
Definition CategoryResponse_of (st : Store) (c : Category) : CategoryResponse :=
  mkCategoryResponse (Category_id c) (Category_name c) (Category_description c)
    (Category_icon c) (Category_color c) (expense_count (Category_id c) st).

(** ** More sample data *)

Definition sample_taxi : Expense := mkExpense 2 1875 "Taxi ride" 738990 2 None.

(** The sample store with a second expense, in the other category. *)
Definition sample_store_2 : Store := mkStore sample_categories [sample_lunch; sample_taxi].

Definition sample_food : Category :=
  mkCategory 1 "Food" (Some "Groceries, restaurants, snacks") (Some "fas fa-utensils")
    (Some "#FF6B6B").


(** A correction of the amount and the notes of an expense. *)
Definition sample_correction : ExpenseUpdate :=
  mkExpenseUpdate None (Some (Some (mkDecimal 2600 (-2)))) None None (Some (Some "Corrected")).


(** Fifteen rounds of draws. *)
Definition sample_draws : list Draw :=
  [mkDraw 0 1250 0 0; mkDraw 1 500 1 29; mkDraw 2 50000 2 7; mkDraw 3 7999 3 1;
   mkDraw 4 12000 4 15; mkDraw 5 2300 5 3; mkDraw 0 860 6 2; mkDraw 1 1500 7 9;
   mkDraw 2 4500 8 20; mkDraw 3 3999 9 11; mkDraw 4 2750 10 28; mkDraw 5 6000 11 5;
   mkDraw 0 3200 12 4; mkDraw 1 4000 13 6; mkDraw 5 2999 15 8].

(** * Properties of the services *)

(** ** Rows and keys *)

Section Rows.
Context {A : Type} (key : A → Z).

Lemma lookup_by_Some k rows r :
  lookup_by key k rows = Some r → r ∈ rows ∧ key r = k.
Proof.
  unfold lookup_by. destruct (list_find _ rows) as [[i x]|] eqn:Hfind; [|done].
  intros [= <-]. apply list_find_Some in Hfind as (Hi & Hk & _).
  split; [by eapply list_elem_of_lookup_2|done].
Qed.

Lemma lookup_by_None k rows :
  lookup_by key k rows = None ↔ k ∉ key <$> rows.
Proof.
  unfold lookup_by. rewrite fmap_None, list_find_None, Forall_forall.
  rewrite list_elem_of_fmap. split.
  - intros Hall (r & -> & Hr). by apply (Hall r).
  - intros Hnot r Hr Hk. apply Hnot. by exists r.
Qed.

Lemma lookup_by_is_Some k rows :
  is_Some (lookup_by key k rows) ↔ k ∈ key <$> rows.
Proof.
  rewrite <-not_eq_None_Some, lookup_by_None.
  destruct (decide (k ∈ key <$> rows)); naive_solver.
Qed.

Lemma lookup_by_elem_of rows r :
  NoDup (key <$> rows) → r ∈ rows → lookup_by key (key r) rows = Some r.
Proof.
  induction rows as [|x rows IH]; [by intros _ ?%elem_of_nil|].
  rewrite fmap_cons, NoDup_cons. intros [Hx Hnd] Hr.
  unfold lookup_by. cbn. destruct (decide (key x = key r)) as [Heq|Hne]; cbn.
  - apply elem_of_cons in Hr as [->|Hr]; [done|].
    exfalso. apply Hx. rewrite Heq. by apply list_elem_of_fmap_2.
  - apply elem_of_cons in Hr as [->|Hr]; [done|].
    specialize (IH Hnd Hr). unfold lookup_by in IH.
    destruct (list_find _ rows) as [[i y]|]; cbn in *; congruence.
Qed.

Lemma replace_by_keys r' rows : key <$> replace_by key r' rows = key <$> rows.
Proof.
  unfold replace_by. rewrite <-list_fmap_compose. apply list_fmap_ext.
  intros i r _. cbn. by case_decide.
Qed.

Lemma lookup_by_replace r' rows :
  key r' ∈ key <$> rows → lookup_by key (key r') (replace_by key r' rows) = Some r'.
Proof.
  induction rows as [|x rows IH]; [by intros ?%elem_of_nil|].
  rewrite fmap_cons, elem_of_cons. intros Hin. unfold lookup_by, replace_by. cbn.
  destruct (decide (key x = key r')) as [Heq|Hne]; cbn.
  - by rewrite decide_True.
  - rewrite decide_False by done. cbn.
    destruct Hin as [?|Hin]; [congruence|].
    specialize (IH Hin). unfold lookup_by, replace_by in IH.
    destruct (list_find _ _) as [[i y]|]; cbn in *; congruence.
Qed.

Lemma lookup_by_replace_ne r' k rows :
  k ≠ key r' → lookup_by key k (replace_by key r' rows) = lookup_by key k rows.
Proof.
  intros Hne. induction rows as [|x rows IH]; [done|].
  unfold lookup_by, replace_by in *. cbn.
  destruct (decide (key x = key r')) as [Heq|Hne']; cbn.
  - rewrite !decide_False by congruence. cbn.
    destruct (list_find _ (_ <$> rows)) as [[i y]|], (list_find _ rows) as [[j z]|];
      cbn in *; congruence.
  - destruct (decide (key x = k)); cbn; [done|].
    destruct (list_find _ (_ <$> rows)) as [[i y]|], (list_find _ rows) as [[j z]|];
      cbn in *; congruence.
Qed.

Lemma next_id_fresh (ids : list Z) : next_id ids ∉ ids.
Proof.
  assert (∀ k, k ∈ ids → k ≤ foldr Z.max 0 ids) as Hmax.
  { induction ids as [|x ids IH]; [by intros k ?%elem_of_nil|].
    intros k [->|Hk]%elem_of_cons; cbn; [lia|]. specialize (IH k Hk). lia. }
  intros Hin%Hmax. unfold next_id in Hin. lia.
Qed.
End Rows.

(** ** Creating an expense *)


(** ** Deleting a category *)


(** ** Unique columns *)

Section Unique.
Context {A B : Type} `{EqDecision B} (f : A → B).

Lemma filter_unique (l : list A) (x : A) :
  NoDup (f <$> l) → x ∈ l → filter (λ y, f y = f x) l = [x].
Proof.
  induction l as [|y l IH]; [by intros _ ?%elem_of_nil|].
  rewrite fmap_cons, NoDup_cons. intros [Hy Hnd] Hx.
  destruct (decide (f y = f x)) as [Heq|Hne].
  - rewrite filter_cons_True by done.
    assert (x = y) as ->.
    { apply elem_of_cons in Hx as [->|Hx]; [done|].
      exfalso. apply Hy. rewrite Heq. by apply list_elem_of_fmap_2. }
    f_equal. apply elem_of_nil_inv. intros z [Hz Hin]%list_elem_of_filter.
    apply Hy. rewrite <-Hz. by apply list_elem_of_fmap_2.
  - rewrite filter_cons_False by done.
    apply elem_of_cons in Hx as [->|Hx]; [done|]. by apply IH.
Qed.

Lemma filter_absent (l : list A) (b : B) :
  b ∉ f <$> l → filter (λ y, f y = b) l = [].
Proof.
  intros Hb. apply elem_of_nil_inv. intros z [Hz Hin]%list_elem_of_filter.
  apply Hb. rewrite <-Hz. by apply list_elem_of_fmap_2.
Qed.

Lemma unique_inj (l : list A) (x y : A) :
  NoDup (f <$> l) → x ∈ l → y ∈ l → f x = f y → x = y.
Proof.
  intros Hnd Hx Hy Heq. pose proof (filter_unique l y Hnd Hy) as Hf.
  assert (x ∈ filter (λ z, f z = f y) l) as Hin by by apply list_elem_of_filter.
  rewrite Hf in Hin. by apply list_elem_of_singleton in Hin.
Qed.
End Unique.

(** ** Creating a category *)

(** C3.  In a store that holds a category named [N], [create_category]
    of a payload named [N] raises Duplicate whatever the other fields of
    the payload are, and the store it leaves holds exactly one category
    named [N].  Names are compared as they are, character by character. *)
Theorem create_category_duplicate (st : Store) (data : CategoryCreate) :
  store_wf st →
  CategoryCreate_name data ∈ Category_name <$> categories st →
  create_category data st
  = (inl (DuplicateEntityException "Category" "name" (Some (CategoryCreate_name data))), st)
  ∧ length (filter (λ c, Category_name c = CategoryCreate_name data)
                   (categories (store_after (create_category data st)))) = 1%nat.
Proof.
  intros [_ Hnames _] (c & Hn & Hc)%list_elem_of_fmap.
  assert (create_category data st
          = (inl (DuplicateEntityException "Category" "name"
                    (Some (CategoryCreate_name data))), st)) as Hrun.
  { unfold create_category, get_category_by_name, select_Category_by_name. unfold_M.
    rewrite Hn, (filter_unique Category_name _ c) by done. done. }
  split; [done|]. rewrite Hrun. unfold store_after. cbn.
  by rewrite Hn, (filter_unique Category_name _ c).
Qed.

(** ** Updating a category *)

(** C6.  An update of a category of the store that supplies the name of
    another category raises Duplicate and leaves the store as it was; an
    update that supplies a name carried by no other category (so also the
    category's own name) succeeds, and the category is stored under that
    name. *)
Theorem update_category_name_collision (st : Store) (c : Category) (data : CategoryUpdate)
    (n : string) :
  store_wf st →
  c ∈ categories st →
  CategoryUpdate_name data = Some (Some n) →
  ((∃ other, other ∈ categories st ∧ Category_name other = n
             ∧ Category_id other ≠ Category_id c) →
     update_category (Category_id c) data st
     = (inl (DuplicateEntityException "Category" "name" (Some n)), st))
  ∧ ((∀ other, other ∈ categories st → Category_name other = n →
               Category_id other = Category_id c) →
     ∃ c' st', update_category (Category_id c) data st = (inr c', st')
               ∧ Category_name c' = n
               ∧ lookup_by Category_id (Category_id c) (categories st') = Some c').
Proof.
  intros [Hids Hnames _] Hc Hname.
  pose proof (lookup_by_elem_of Category_id _ c Hids Hc) as Hget.
  unfold update_category, get_category_by_id, get_Category, get_category_by_name,
    select_Category_by_name. unfold_M. rewrite Hget, Hname. split.
  - intros (other & Ho & <- & Hne).
    rewrite (filter_unique Category_name _ other) by done. cbn.
    by rewrite decide_True.
  - intros Hfree.
    assert (setattr_Category data c
            = Some (mkCategory (Category_id c) n
                      (set_nullable (CategoryUpdate_description data) (Category_description c))
                      (set_nullable (CategoryUpdate_icon data) (Category_icon c))
                      (set_nullable (CategoryUpdate_color data) (Category_color c)))) as Hset.
    { unfold setattr_Category. by rewrite Hname. }
    assert (∀ st0, st0 = st → ∃ c' st',
              commit_Category data c st0 = (inr c', st') ∧ Category_name c' = n
              ∧ lookup_by Category_id (Category_id c) (categories st') = Some c') as Hcommit.
    { intros st0 ->. unfold commit_Category. rewrite Hset.
      case_decide as Hsame.
      - eexists _, _. split; [done|]. split; [by rewrite <-Hsame|done].
      - case_decide as Hdup.
        + apply Exists_exists in Hdup as (o & Ho & Hon & Hoid). cbn in *.
          by specialize (Hfree o Ho Hon).
        + eexists _, _. split; [done|]. split; [done|]. cbn.
          apply (lookup_by_replace Category_id (mkCategory (Category_id c) n _ _ _)).
          cbn. by apply list_elem_of_fmap_2. }
    destruct (decide (n ∈ Category_name <$> categories st)) as [Hin|Hout].
    + apply list_elem_of_fmap in Hin as (o & -> & Ho).
      rewrite (filter_unique Category_name _ o) by done. cbn.
      rewrite decide_False by (intros Hne; by apply Hne, Hfree).
      by apply Hcommit.
    + rewrite (filter_absent Category_name) by done. cbn. by apply Hcommit.
Qed.

(** ** Updating an expense *)

Lemma validate_category_run (data : ExpenseUpdate) (st : Store) :
  validate_category data st = (inr (), st)
  ∨ ∃ ident, ExpenseUpdate_category_id data = Some ident
             ∧ validate_category data st = (inl (EntityNotFoundException "Category" ident), st).
Proof.
  unfold validate_category, get_Category. unfold_M.
  destruct (ExpenseUpdate_category_id data) as [[k|]|]; [|right; eauto|by left].
  destruct (lookup_by _ _ _); [by left|right; eauto].
Qed.

Lemma validate_amount_run (data : ExpenseUpdate) (st : Store) :
  validate_amount data st = (inr (), st) ∨ ∃ exn, validate_amount data st = (inl exn, st).
Proof.
  unfold validate_amount. unfold_M.
  destruct (ExpenseUpdate_amount data) as [[a|]|]; [|right; eauto|by left].
  destruct (Decimal_le_0 a); [right; eauto|by left].
Qed.

Lemma validate_date_run (today : Z) (data : ExpenseUpdate) (st : Store) :
  validate_date today data st = (inr (), st)
  ∨ ∃ exn, validate_date today data st = (inl exn, st).
Proof.
  unfold validate_date. unfold_M.
  destruct (ExpenseUpdate_expense_date data) as [[d|]|]; [|right; eauto|by left].
  destruct (today <? d); [right; eauto|by left].
Qed.






(** ** Partial updates *)

Lemma setattr_Category_updated (data : CategoryUpdate) (c c' : Category) :
  setattr_Category data c = Some c' → Category_updated data c c'.
Proof.
  unfold setattr_Category. destruct data as [[[n|]|] d i k]; cbn; intros [= <-];
    (split; cbn; [done|done|by destruct d|by destruct i|by destruct k]).
Qed.

Lemma setattr_Expense_updated (data : ExpenseUpdate) (e e' : Expense) :
  setattr_Expense data e = Some e' → Expense_updated data e e'.
Proof.
  unfold setattr_Expense.
  destruct data as [[[d|]|] [[a|]|] [[t|]|] [[k|]|] n]; cbn; intros [= <-];
    (split; cbn; [done|done|done|done|done|by destruct n]).
Qed.



Lemma commit_Category_success (data : CategoryUpdate) (c c' : Category) (st st' : Store) :
  Category_id c ∈ Category_id <$> categories st →
  commit_Category data c st = (inr c', st') →
  lookup_by Category_id (Category_id c) (categories st') = Some c'
  ∨ (c' = c ∧ st' = st).
Proof.
  intros Hin. unfold commit_Category.
  destruct (setattr_Category data c) as [c0|] eqn:Hset; [|congruence].
  pose proof (updated_Category_id _ _ _ (setattr_Category_updated _ _ _ Hset)) as Hid.
  repeat case_decide; intros [= <- <-]; [by right|]. left. cbn.
  rewrite <-Hid. apply lookup_by_replace. by rewrite Hid.
Qed.


Lemma commit_Category_updated (data : CategoryUpdate) (c c' : Category) (st st' : Store) :
  commit_Category data c st = (inr c', st') → Category_updated data c c'.
Proof.
  unfold commit_Category.
  destruct (setattr_Category data c) as [c0|] eqn:Hset; [|congruence].
  apply setattr_Category_updated in Hset.
  repeat case_decide; intros [= <- <-]; by subst.
Qed.


(** The checks of [update_category] leave the store alone. *)
Lemma update_category_run (cid : Z) (data : CategoryUpdate) (c : Category) (st : Store) :
  lookup_by Category_id cid (categories st) = Some c →
  update_category cid data st = commit_Category data c st
  ∨ ∃ exn, update_category cid data st = (inl exn, st).
Proof.
  intros Hget. unfold update_category, get_category_by_id, get_Category,
    get_category_by_name, scalar_one_or_none. unfold_M. rewrite Hget.
  destruct (CategoryUpdate_name data) as [name|]; [|by left].
  destruct (select_Category_by_name name st) as [|o [|o' rows]]; unfold_M;
    [by left| |right; eauto].
  case_decide; [right; eauto|by left].
Qed.

Lemma update_expense_run (today eid : Z) (data : ExpenseUpdate) (e : Expense) (st : Store) :
  lookup_by Expense_id eid (expenses st) = Some e →
  update_expense today eid data st = commit_Expense data e st
  ∨ ∃ exn, update_expense today eid data st = (inl exn, st).
Proof.
  intros Hget. unfold update_expense, get_expense_by_id, get_Expense.
  unfold mbind, M_bind, query, raise, mret, M_ret. rewrite Hget.
  destruct (validate_category_run data st) as [->|(ident & _ & ->)]; [|right; eauto].
  destruct (validate_amount_run data st) as [->|(x & ->)]; [|right; eauto].
  destruct (validate_date_run today data st) as [->|(x & ->)]; [|right; eauto].
  by left.
Qed.


(** ** Grouping a join *)

Section Blocks.
Context {A R : Type} (key : R → Z) (kof : A → Z) (block : A → list R).
Hypothesis block_key : ∀ a r, r ∈ block a → key r = kof a.
Hypothesis block_nonempty : ∀ a, block a ≠ [].

Lemma blocks_keys (l : list A) (k : Z) :
  k ∈ key <$> (l ≫= block) → k ∈ kof <$> l.
Proof.
  intros (r & -> & (a & Hr & Ha)%list_elem_of_bind)%list_elem_of_fmap.
  rewrite (block_key a r Hr). by apply list_elem_of_fmap_2.
Qed.

Lemma remove_dups_block (b : list R) (k : Z) (rest : list Z) :
  b ≠ [] → (∀ r, r ∈ b → key r = k) → k ∉ rest →
  remove_dups ((key <$> b) ++ rest) = k :: remove_dups rest.
Proof.
  intros Hne Hkey Hk. induction b as [|r b IH]; [done|].
  assert (key r = k) as Hr by (apply Hkey; left).
  destruct b as [|r' b].
  - cbn. rewrite Hr. by destruct (decide_rel elem_of k rest).
  - assert (key r' = k) as Hr' by (apply Hkey; right; left).
    change (remove_dups (key r :: ((key <$> r' :: b) ++ rest))
            = k :: remove_dups rest).
    cbn [remove_dups].
    destruct (decide_rel elem_of (key r) ((key <$> r' :: b) ++ rest)) as [_|Hout].
    + apply IH; [done|]. intros x Hx. apply Hkey. by right.
    + exfalso. apply Hout. rewrite Hr, fmap_cons, Hr'. left.
Qed.

Lemma remove_dups_blocks (l : list A) :
  NoDup (kof <$> l) → remove_dups (key <$> (l ≫= block)) = kof <$> l.
Proof.
  induction l as [|a l IH]; [done|].
  rewrite fmap_cons, NoDup_cons. intros [Ha Hnd].
  rewrite bind_cons, fmap_app.
  rewrite (remove_dups_block (block a) (kof a)).
  - by rewrite IH.
  - apply block_nonempty.
  - apply block_key.
  - intros Hin. by apply Ha, blocks_keys.
Qed.

Lemma filter_block_same (a : A) :
  filter (λ r, key r = kof a) (block a) = block a.
Proof.
  pose proof (block_key a) as Hkey.
  induction (block a) as [|r b IH]; [done|].
  rewrite filter_cons_True by (apply Hkey; left).
  f_equal. apply IH. intros x Hx. apply Hkey. by right.
Qed.

Lemma filter_blocks_absent (l : list A) (k : Z) :
  k ∉ kof <$> l → filter (λ r, key r = k) (l ≫= block) = [].
Proof.
  intros Hk. apply elem_of_nil_inv. intros r [Hr Hin]%list_elem_of_filter.
  apply Hk, blocks_keys. rewrite <-Hr. by apply list_elem_of_fmap_2.
Qed.

Lemma filter_blocks (l : list A) (a : A) :
  NoDup (kof <$> l) → a ∈ l →
  filter (λ r, key r = kof a) (l ≫= block) = block a.
Proof.
  induction l as [|x l IH]; [by intros _ ?%elem_of_nil|].
  rewrite fmap_cons, NoDup_cons. intros [Hx Hnd] Ha.
  rewrite bind_cons, filter_app.
  destruct (decide (kof x = kof a)) as [Heq|Hne].
  - assert (a = x) as ->.
    { apply elem_of_cons in Ha as [->|Ha]; [done|].
      exfalso. apply Hx. rewrite Heq. by apply list_elem_of_fmap_2. }
    rewrite filter_block_same, filter_blocks_absent by done.
    by rewrite app_nil_r.
  - apply elem_of_cons in Ha as [->|Ha]; [done|].
    rewrite IH by done.
    replace (filter (λ r, key r = kof a) (block x)) with (@nil R); [done|].
    symmetry. apply elem_of_nil_inv. intros r [Hr Hin]%list_elem_of_filter.
    apply Hne. by rewrite <-(block_key x r Hin).
Qed.

Lemma group_by_blocks (l : list A) :
  NoDup (kof <$> l) → group_by key (l ≫= block) = block <$> l.
Proof.
  intros Hnd. unfold group_by. rewrite remove_dups_blocks by done.
  rewrite <-list_fmap_compose. apply list_fmap_ext. intros i a Hi. cbn.
  apply filter_blocks; [done|]. by eapply list_elem_of_lookup_2.
Qed.
End Blocks.

Lemma joined_rows_category (es : list Expense) (c : Category) r :
  r ∈ joined_rows es c → Category_id r.1 = Category_id c.
Proof.
  unfold joined_rows. destruct (filter _ es) as [|y ys].
  - by intros ->%list_elem_of_singleton.
  - by intros (e & -> & _)%list_elem_of_fmap.
Qed.

Lemma joined_rows_nonempty (es : list Expense) (c : Category) : joined_rows es c ≠ [].
Proof. unfold joined_rows. by destruct (filter _ es). Qed.

Lemma joined_rows_count (es : list Expense) (c : Category) :
  match joined_rows es c with
  | [] => None
  | row :: _ =>
      Some (row.1, sql_count ((λ r : Category * option Expense,
                                 Expense_id <$> r.2) <$> joined_rows es c))
  end
  = Some (c, Z.of_nat (length (filter (λ e, Expense_category_id e = Category_id c) es))).
Proof.
  unfold joined_rows.
  rewrite (list_filter_iff (λ e, Expense_category_id e = Category_id c)
             (λ e, bool_decide (Category_id c = Expense_category_id e) = true))
    by (intros e; rewrite bool_decide_eq_true; naive_solver).
  destruct (filter _ es) as [|y ys]; [done|].
  cbn [fmap list_fmap fst]. do 2 f_equal. unfold sql_count. f_equal.
  rewrite <-list_fmap_compose.
  change (length (filter is_Some ((λ e, Some (Expense_id e)) <$> y :: ys))
          = length (y :: ys)).
  generalize (y :: ys). intros l. induction l as [|x l IH]; [done|].
  rewrite fmap_cons, filter_cons_True by done. cbn. by rewrite IH.
Qed.

(** C7.  [get_categories_with_expense_count] returns one pair for each
    category of the store, in table order, and the count paired with a
    category is the number of expenses whose [category_id] is its id; a
    category without expenses is paired with 0. *)
Theorem get_categories_with_expense_count_correct (st : Store) :
  store_wf st →
  ∃ result,
    get_categories_with_expense_count st = (inr result, st)
    ∧ result = (λ c, (c, expense_count (Category_id c) st)) <$> categories st
    ∧ (∀ c, c ∈ categories st →
            (∀ e, e ∈ expenses st → Expense_category_id e ≠ Category_id c) →
            (c, 0) ∈ result).
Proof.
  intros [Hids _ _]. eexists. split; [|split; [reflexivity|]].
  - unfold get_categories_with_expense_count, query, outerjoin. f_equal. f_equal.
    change (λ x : Category,
              match filter (λ y, bool_decide (Category_id x = Expense_category_id y) = true)
                      (expenses st) with
              | [] => [(x, None)]
              | y :: l => (λ y0, (x, Some y0)) <$> y :: l
              end) with (joined_rows (expenses st)).
    rewrite (group_by_blocks (λ row : Category * option Expense, Category_id row.1)
               Category_id (joined_rows (expenses st)));
      [|apply joined_rows_category|apply joined_rows_nonempty|done].
    unfold expense_count. induction (categories st) as [|c cs IH]; [done|].
    rewrite !fmap_cons. cbn [omap list_omap].
    rewrite joined_rows_count, IH; [done|]. by apply NoDup_cons in Hids as [_ ?].
  - intros c Hc Hnone. apply list_elem_of_fmap. exists c. split; [|done].
    unfold expense_count.
    replace (filter (λ e, Expense_category_id e = Category_id c) (expenses st))
      with (@nil Expense); [done|].
    symmetry. apply elem_of_nil_inv. intros e [He Hin]%list_elem_of_filter.
    by apply (Hnone e).
Qed.

(** ** The total amount *)


(** ** Searching *)

Lemma starts_with_spec (k s : list ascii) :
  starts_with k s = true ↔ ∃ post, s = k ++ post.
Proof.
  revert s. induction k as [|a k IH]; intros [|b s]; cbn.
  - split; [by exists []|done].
  - split; [by exists (b :: s)|done].
  - split; [done|]. by intros [post ?].
  - rewrite andb_true_iff, bool_decide_eq_true, IH. split.
    + intros [-> [post ->]]. by exists post.
    + intros [post [= -> ->]]. split; [done|]. by exists post.
Qed.

Lemma containsb_spec (k s : list ascii) : containsb k s = true ↔ contains k s.
Proof.
  induction s as [|b s IH]; cbn.
  - rewrite orb_false_r, starts_with_spec. split.
    + intros [post ->]. by exists [], post.
    + intros ([|x pre] & post & Heq); cbn in Heq; [by exists post|done].
  - rewrite orb_true_iff, starts_with_spec, IH. split.
    + intros [[post ->]|(pre & post & ->)]; [by exists [], post|by exists (b :: pre), post].
    + intros ([|x pre] & post & Heq); cbn in Heq; [left; by exists post|].
      right. injection Heq as -> ->. by exists pre, post.
Qed.

Lemma skip_any_spec (rest : list ascii → bool) (text : list ascii) :
  skip_any rest text = true ↔ ∃ t1 t2, text = t1 ++ t2 ∧ rest t2 = true.
Proof.
  induction text as [|c text IH]; cbn.
  - rewrite orb_false_r. split.
    + intros H. by exists [], [].
    + intros ([|x t1] & t2 & Heq & H); cbn in Heq; [by subst|done].
  - rewrite orb_true_iff, IH. split.
    + intros [H|(t1 & t2 & -> & H)]; [by exists [], (c :: text)|by exists (c :: t1), t2].
    + intros ([|x t1] & t2 & Heq & H); cbn in Heq; [left; by subst|].
      right. injection Heq as -> ->. by exists t1, t2.
Qed.

(** A pattern that begins with a run of ordinary characters matches the
    texts that begin with that run. *)
Lemma like_literal (k q s : list ascii) :
  percent ∉ k → underscore ∉ k →
  like (k ++ q) s = true ↔ ∃ s2, s = k ++ s2 ∧ like q s2 = true.
Proof.
  revert s. induction k as [|a k IH]; intros s Hp Hu.
  - cbn. split; [by exists s|by intros (s2 & -> & Hq)].
  - apply not_elem_of_cons in Hp as [Hap Hp]. apply not_elem_of_cons in Hu as [Hau Hu].
    cbn. rewrite decide_False by done. destruct s as [|c s].
    + split; [done|]. by intros (s2 & Heq & _).
    + rewrite andb_true_iff, orb_true_iff, !bool_decide_eq_true, (IH s Hp Hu). split.
      * intros [[Hund| ->] (s2 & -> & Hq)]; [done|]. by exists s2.
      * intros (s2 & [= -> ->] & Hq). split; [by right|]. by exists s2.
Qed.

Lemma like_percent_cons (p s : list ascii) :
  like (percent :: p) s = skip_any (like p) s.
Proof. done. Qed.

(** Any pattern that begins with a run of characters matches the texts
    that begin with the same run. *)
Lemma like_self (k q s2 : list ascii) :
  like q s2 = true → like (k ++ q) (k ++ s2) = true.
Proof.
  intros H. induction k as [|a k IH]; [done|].
  change (like ((a :: k) ++ q) ((a :: k) ++ s2))
    with (if decide (a = percent) then skip_any (like (k ++ q)) (a :: k ++ s2)
          else (bool_decide (a = underscore) || bool_decide (a = a))
               && like (k ++ q) (k ++ s2)).
  case_decide.
  - apply skip_any_spec. by exists [a], (k ++ s2).
  - rewrite IH, andb_true_r, orb_true_iff, !bool_decide_eq_true. by right.
Qed.

Lemma like_percent (s : list ascii) : like [percent] s = true.
Proof.
  rewrite like_percent_cons. apply skip_any_spec. exists s, [].
  by rewrite app_nil_r.
Qed.

Lemma like_infix_complete (k s : list ascii) :
  contains k s → like (percent :: k ++ [percent]) s = true.
Proof.
  intros (pre & post & ->). rewrite like_percent_cons. apply skip_any_spec.
  exists pre, (k ++ post). split; [done|]. apply like_self, like_percent.
Qed.

Lemma like_infix_exact (k s : list ascii) :
  percent ∉ k → underscore ∉ k →
  like (percent :: k ++ [percent]) s = true ↔ contains k s.
Proof.
  intros Hp Hu. split; [|apply like_infix_complete].
  rewrite like_percent_cons.
  intros (t1 & t2 & -> & Hlit)%skip_any_spec.
  apply like_literal in Hlit as (s2 & -> & _); [|done..].
  by exists t1, s2.
Qed.

Lemma list_ascii_of_string_app (s1 s2 : string) :
  list_ascii_of_string (s1 ++ s2) = list_ascii_of_string s1 ++ list_ascii_of_string s2.
Proof.
  induction s1 as [|a s1 IH]; [done|].
  change (String a s1 +:+ s2) with (String a (s1 +:+ s2)).
  cbn [list_ascii_of_string]. by rewrite IH.
Qed.

Lemma ilike_pattern (description keyword : string) :
  ilike description ("%" ++ keyword ++ "%")
  = like (percent :: lower (list_ascii_of_string keyword) ++ [percent])
         (lower (list_ascii_of_string description)).
Proof.
  unfold ilike, lower. f_equal.
  change (list_ascii_of_string ("%" ++ keyword ++ "%"))
    with (percent :: list_ascii_of_string (keyword ++ "%")).
  by rewrite list_ascii_of_string_app, fmap_cons, fmap_app.
Qed.

Lemma lower_ascii_wildcard (c : ascii) :
  (lower_ascii c = percent → c = percent) ∧ (lower_ascii c = underscore → c = underscore).
Proof.
  destruct c as [[] [] [] [] [] [] [] []]; vm_compute; split; congruence.
Qed.

Lemma lower_wildcard_free (keyword : string) :
  wildcard_free keyword →
  (percent ∉ lower (list_ascii_of_string keyword))
  ∧ (underscore ∉ lower (list_ascii_of_string keyword)).
Proof.
  intros [Hp Hu]. unfold lower. split.
  - intros (c & Hc & Hin)%list_elem_of_fmap.
    symmetry in Hc. apply lower_ascii_wildcard in Hc as ->. done.
  - intros (c & Hc & Hin)%list_elem_of_fmap.
    symmetry in Hc. apply lower_ascii_wildcard in Hc as ->. done.
Qed.

(** Every expense whose description contains the keyword is found; the
    empty keyword finds every expense. *)
Lemma search_expenses_complete (keyword : string) (st : Store) (e : Expense) :
  e ∈ expenses st → contains_ci keyword (Expense_description e) →
  ∃ found, search_expenses keyword st = (inr found, st) ∧ e ∈ found.
Proof.
  intros He Hk. eexists. split; [done|].
  apply list_elem_of_filter. split; [|done].
  rewrite ilike_pattern. by apply like_infix_complete.
Qed.

Lemma search_expenses_empty_keyword (st : Store) :
  search_expenses "" st = (inr (expenses st), st).
Proof.
  unfold search_expenses, query. do 2 f_equal.
  induction (expenses st) as [|e es IH]; [done|].
  rewrite filter_cons_True, IH; [done|].
  rewrite ilike_pattern. apply like_infix_complete. by exists [], (lower (list_ascii_of_string (Expense_description e))).
Qed.

(** For a keyword without [%] and [_], the expenses found are those whose
    description contains the keyword, whatever the case of the letters. *)
Lemma search_expenses_literal (keyword : string) (st : Store) :
  wildcard_free keyword →
  ∃ found, search_expenses keyword st = (inr found, st)
           ∧ ∀ e, e ∈ found ↔ e ∈ expenses st ∧ contains_ci keyword (Expense_description e).
Proof.
  intros [Hp Hu]%lower_wildcard_free. eexists. split; [done|].
  intros e. rewrite list_elem_of_filter, ilike_pattern, like_infix_exact by done.
  unfold contains_ci. tauto.
Qed.

(** C9.  The keyword is spliced into a LIKE pattern as it is, so [_] (and
    likewise [%]) in a keyword is read as a wildcard: the search for ["_"]
    returns the expense described as "Lunch", whose description does not
    contain an underscore. *)
Theorem search_expenses_wildcard_keyword :
  search_expenses "_" sample_store = (inr [sample_lunch], sample_store)
  ∧ ¬ contains_ci "_" (Expense_description sample_lunch).
Proof.
  split; [done|]. unfold contains_ci. rewrite <-containsb_spec. by vm_compute.
Qed.

(** ** Amounts *)

Lemma strip_zeros_spec (fuel : nat) (c e : Z) :
  c ≠ 0 → Z.abs c < 2 ^ Z.of_nat fuel →
  (strip_zeros fuel c e).1 mod 10 ≠ 0
  ∧ e ≤ (strip_zeros fuel c e).2
  ∧ c = (strip_zeros fuel c e).1 * 10 ^ ((strip_zeros fuel c e).2 - e).
Proof.
  revert c e. induction fuel as [|fuel IH]; intros c e Hc Hlt.
  - cbn in Hlt. lia.
  - cbn [strip_zeros]. destruct (c mod 10 =? 0) eqn:Hmod.
    + apply Z.eqb_eq in Hmod.
      assert (c = 10 * (c / 10)) as Hdiv by (pose proof (Z.div_mod c 10); lia).
      assert (c / 10 ≠ 0) as Hq by lia.
      assert (Z.abs (c / 10) < 2 ^ Z.of_nat fuel) as Hlt'.
      { rewrite Nat2Z.inj_succ, Z.pow_succ_r in Hlt by lia. lia. }
      destruct (IH (c / 10) (e + 1) Hq Hlt') as (H1 & H2 & H3).
      split; [done|]. split; [lia|].
      replace ((strip_zeros fuel (c / 10) (e + 1)).2 - e)
        with (Z.succ ((strip_zeros fuel (c / 10) (e + 1)).2 - (e + 1))) by lia.
      rewrite Z.pow_succ_r by lia. lia.
    + apply Z.eqb_neq in Hmod. cbn. split; [done|]. split; [lia|].
      rewrite Z.sub_diag. cbn. lia.
Qed.

(** [normalize] keeps the value, never lowers the exponent, and leaves no
    trailing zero in a non-zero coefficient: the loop is not cut short. *)
Lemma normalize_spec (d : Decimal) :
  coefficient d ≠ 0 →
  coefficient (normalize d) mod 10 ≠ 0
  ∧ exponent d ≤ exponent (normalize d)
  ∧ coefficient d
    = coefficient (normalize d) * 10 ^ (exponent (normalize d) - exponent d).
Proof.
  intros Hc. unfold normalize. rewrite (proj2 (Z.eqb_neq _ _) Hc).
  pose proof (strip_zeros_spec (S (Z.to_nat (Z.log2 (Z.abs (coefficient d)))))
                (coefficient d) (exponent d) Hc) as Hspec.
  destruct (strip_zeros _ _ _) as [c e]. cbn in *. apply Hspec.
  rewrite Nat2Z.inj_succ, Z2Nat.id by apply Z.log2_nonneg.
  apply Z.log2_spec. lia.
Qed.

Lemma decimals_normalize_le (d : Decimal) : decimals (normalize d) ≤ decimals d.
Proof.
  destruct (decide (coefficient d = 0)) as [Hz|Hnz].
  - unfold normalize. rewrite (proj2 (Z.eqb_eq _ _) Hz). unfold decimals. cbn.
    case_match; lia.
  - destruct (normalize_spec d Hnz) as (_ & Hle & _). unfold decimals.
    repeat case_match; lia.
Qed.

(** What [amount_field] accepts: the positive decimals with at most two
    decimal places once trailing zeros are dropped. *)
Lemma amount_field_spec (d : Decimal) :
  amount_field d = true ↔ 0 < coefficient d ∧ decimals (normalize d) ≤ 2.
Proof.
  unfold amount_field, check_decimal_places, Decimal_gt_0.
  pose proof (decimals_normalize_le d).
  rewrite andb_true_iff, negb_true_iff, andb_false_iff, Z.ltb_lt, !Z.ltb_ge. lia.
Qed.

(** An accepted amount is stored without rounding: the stored hundredths
    read back as a decimal of the same value. *)
Lemma to_numeric_2_exact (d : Decimal) :
  amount_field d = true → Decimal_eqv (of_numeric_2 (to_numeric_2 d)) d.
Proof.
  intros [Hpos Hplaces]%amount_field_spec.
  unfold Decimal_eqv, of_numeric_2, to_numeric_2. cbn [coefficient exponent].
  destruct (0 <=? exponent d + 2) eqn:Hexp.
  - apply Z.leb_le in Hexp. rewrite Z.min_l by lia.
    rewrite Z.sub_diag. replace (exponent d - -2) with (exponent d + 2) by lia.
    cbn. lia.
  - apply Z.leb_gt in Hexp. rewrite Z.min_r by lia. rewrite Z.sub_diag.
    destruct (normalize_spec d) as (_ & _ & Hval); [lia|].
    assert (-2 ≤ exponent (normalize d)) as Hn.
    { unfold decimals in Hplaces. case_match; lia. }
    set (p := 10 ^ (- (exponent d + 2))).
    assert (0 < p) as Hp by (apply Z.pow_pos_nonneg; lia).
    assert (coefficient d
            = coefficient (normalize d) * 10 ^ (exponent (normalize d) + 2) * p) as Hmul.
    { rewrite Hval at 1. unfold p. rewrite <-Z.mul_assoc, <-Z.pow_add_r by lia.
      do 2 f_equal. lia. }
    assert (round_half_even (coefficient d) p
            = coefficient (normalize d) * 10 ^ (exponent (normalize d) + 2)) as ->.
    { unfold round_half_even. rewrite Hmul, Z.mod_mul, Z.div_mul by lia.
      by rewrite (proj2 (Z.ltb_lt (2 * 0) p)) by lia. }
    replace (-2 - exponent d) with (- (exponent d + 2)) by lia. fold p.
    cbn. lia.
Qed.



(** ** The constraints of the store are kept by every service *)

Lemma store_wf_empty : store_wf empty_store.
Proof. split; cbn; constructor. Qed.

Lemma NoDup_fmap_filter {A B : Type} (f : A → B) (P : A → Prop) `{∀ x, Decision (P x)}
    (l : list A) :
  NoDup (f <$> l) → NoDup (f <$> filter P l).
Proof.
  intros Hnd. eapply sublist_NoDup; [done|]. apply fmap_sublist, sublist_filter.
Qed.

Lemma NoDup_snoc_fresh {B : Type} (l : list B) (x : B) :
  NoDup l → x ∉ l → NoDup (l ++ [x]).
Proof.
  intros Hnd Hx. apply NoDup_app. split; [done|]. split; [|apply NoDup_singleton].
  intros y Hy ->%list_elem_of_singleton. done.
Qed.

Lemma add_Category_wf (data : CategoryCreate) (st : Store) :
  store_wf st → store_wf (add_Category data st).2.
Proof.
  intros [Hids Hnames Hexp]. unfold add_Category. case_decide as Hdup; [done|].
  split; cbn; [| |done]; rewrite fmap_app; cbn.
  - apply NoDup_snoc_fresh; [done|apply next_id_fresh].
  - by apply NoDup_snoc_fresh.
Qed.

Lemma commit_Category_wf (data : CategoryUpdate) (c : Category) (st : Store) :
  store_wf st → store_wf (commit_Category data c st).2.
Proof.
  intros Hwf. pose proof Hwf as [Hids Hnames Hexp]. unfold commit_Category.
  destruct (setattr_Category data c) as [c'|]; [|done].
  case_decide; [done|]. case_decide as Hdup; [done|].
  rewrite Exists_exists in Hdup.
  split; cbn; [by rewrite replace_by_keys| |done].
  apply NoDup_fmap_2_strong.
  - assert (∀ x, x ∈ replace_by Category_id c' (categories st) →
                 x = c' ∨ (x ∈ categories st ∧ Category_id x ≠ Category_id c')) as Hcases.
    { intros x (o & -> & Ho)%list_elem_of_fmap. case_decide; [by left|by right]. }
    intros x y [->|[Hx Hxid]]%Hcases [->|[Hy Hyid]]%Hcases Heq; [done| | |].
    + exfalso. apply Hdup. by exists y.
    + exfalso. apply Hdup. by exists x.
    + by eapply (unique_inj Category_name).
  - apply (NoDup_fmap_1 Category_id). by rewrite replace_by_keys.
Qed.

Lemma delete_Category_wf (c : Category) (st : Store) :
  store_wf st → store_wf (delete_Category c st).2.
Proof. intros [Hids Hnames Hexp]. split; cbn; by apply NoDup_fmap_filter. Qed.

Lemma add_Expense_wf (data : ExpenseCreate) (st : Store) :
  store_wf st → store_wf (add_Expense data st).2.
Proof.
  intros [Hids Hnames Hexp]. split; cbn; [done|done|].
  rewrite fmap_app. cbn. apply NoDup_snoc_fresh; [done|apply next_id_fresh].
Qed.

Lemma commit_Expense_wf (data : ExpenseUpdate) (e : Expense) (st : Store) :
  store_wf st → store_wf (commit_Expense data e st).2.
Proof.
  intros Hwf. pose proof Hwf as [Hids Hnames Hexp]. unfold commit_Expense.
  destruct (setattr_Expense data e) as [e'|]; [|done].
  case_decide; [done|]. split; cbn; [done|done|by rewrite replace_by_keys].
Qed.

Lemma delete_Expense_wf (e : Expense) (st : Store) :
  store_wf st → store_wf (delete_Expense e st).2.
Proof. intros [Hids Hnames Hexp]. split; cbn; [done|done|by apply NoDup_fmap_filter]. Qed.

(** Every state reached from a well-formed one by a service, whether
    the service returns or raises, is well-formed. *)
Theorem services_preserve_store_wf (today : Z) (st : Store) :
  store_wf st →
  (∀ data, store_wf (store_after (create_category data st)))
  ∧ (∀ k data, store_wf (store_after (update_category k data st)))
  ∧ (∀ k, store_wf (store_after (delete_category k st)))
  ∧ (∀ data, store_wf (store_after (create_expense today data st)))
  ∧ (∀ k data, store_wf (store_after (update_expense today k data st)))
  ∧ (∀ k, store_wf (store_after (delete_expense k st))).
Proof.
  intros Hwf. split; [|split; [|split; [|split; [|split]]]].
  - intros data. unfold create_category, get_category_by_name, scalar_one_or_none.
    unfold_M. destruct (select_Category_by_name _ st) as [|o [|o' rows]]; unfold_M;
      [by apply add_Category_wf|done|done].
  - intros k data.
    destruct (lookup_by Category_id k (categories st)) as [c|] eqn:Hget.
    + destruct (update_category_run k data c st Hget) as [->|[exn ->]]; [|done].
      by apply commit_Category_wf.
    + unfold update_category, get_category_by_id, get_Category. unfold_M.
      by rewrite Hget.
  - intros k. unfold delete_category, get_category_by_id, get_Category. unfold_M.
    destruct (lookup_by Category_id k (categories st)) as [c|]; [|done].
    by apply (delete_Category_wf c).
  - intros data. unfold create_expense, get_Category. unfold_M.
    destruct (lookup_by Category_id _ (categories st)) as [c|]; [|done].
    destruct (Decimal_le_0 _); [done|]. destruct (today <? _); [done|].
    by apply add_Expense_wf.
  - intros k data.
    destruct (lookup_by Expense_id k (expenses st)) as [e|] eqn:Hget.
    + destruct (update_expense_run today k data e st Hget) as [->|[exn ->]]; [|done].
      by apply commit_Expense_wf.
    + unfold update_expense, get_expense_by_id, get_Expense.
      unfold mbind, M_bind, query, raise, store_after. by rewrite Hget.
  - intros k. unfold delete_expense, get_expense_by_id, get_Expense. unfold_M.
    destruct (lookup_by Expense_id k (expenses st)) as [e|]; [|done].
    by apply (delete_Expense_wf e).
Qed.

(** ** Expenses keep referencing a category *)

Lemma setattr_Expense_category (st : Store) (data : ExpenseUpdate) (e e' : Expense) :
  validate_category data st = (inr (), st) →
  Expense_category_id e ∈ Category_id <$> categories st →
  setattr_Expense data e = Some e' →
  Expense_category_id e' ∈ Category_id <$> categories st.
Proof.
  intros Hcheck Hold Hset.
  pose proof (updated_Expense_category_id _ _ _ (setattr_Expense_updated _ _ _ Hset)) as Hk.
  unfold validate_category, get_Category in Hcheck. unfold_M.
  destruct (ExpenseUpdate_category_id data) as [[k|]|]; cbn in Hk.
  - injection Hk as ->. apply lookup_by_is_Some.
    by destruct (lookup_by Category_id k (categories st)).
  - done.
  - by injection Hk as ->.
Qed.

(** In a store where every expense references a category of the store,
    this is still so after any service. *)
Theorem services_preserve_store_fk (today : Z) (st : Store) :
  store_fk st →
  (∀ data, store_fk (store_after (create_category data st)))
  ∧ (∀ k data, store_fk (store_after (update_category k data st)))
  ∧ (∀ k, store_fk (store_after (delete_category k st)))
  ∧ (∀ data, store_fk (store_after (create_expense today data st)))
  ∧ (∀ k data, store_fk (store_after (update_expense today k data st)))
  ∧ (∀ k, store_fk (store_after (delete_expense k st))).
Proof.
  intros Hfk. split; [|split; [|split; [|split; [|split]]]].
  - intros data. unfold create_category, get_category_by_name, scalar_one_or_none.
    unfold_M. destruct (select_Category_by_name _ st) as [|o [|o' rows]]; unfold_M;
      [|done|done].
    unfold add_Category. case_decide; [done|]. intros e He. cbn in *.
    rewrite fmap_app. apply elem_of_app. left. by apply Hfk.
  - intros k data.
    destruct (lookup_by Category_id k (categories st)) as [c|] eqn:Hget.
    + destruct (update_category_run k data c st Hget) as [->|[exn ->]]; [|done].
      unfold commit_Category, store_after.
      destruct (setattr_Category data c) as [c'|]; [|done].
      repeat case_decide; [done|done|]. intros e He. cbn in *.
      rewrite replace_by_keys. by apply Hfk.
    + unfold update_category, get_category_by_id, get_Category. unfold_M.
      by rewrite Hget.
  - intros k. unfold delete_category, get_category_by_id, get_Category, delete_Category.
    unfold_M. destruct (lookup_by Category_id k (categories st)) as [c|]; [|done].
    intros e [Hne He]%list_elem_of_filter. cbn.
    apply Hfk in He as (o & Hid & Ho)%list_elem_of_fmap.
    apply list_elem_of_fmap. exists o. split; [done|].
    apply list_elem_of_filter. split; [congruence|done].
  - intros data. unfold create_expense, get_Category, add_Expense. unfold_M.
    destruct (lookup_by Category_id _ (categories st)) as [c|] eqn:Hget; [|done].
    destruct (Decimal_le_0 _); [done|]. destruct (today <? _); [done|].
    intros e [He| ->%list_elem_of_singleton]%elem_of_app; cbn; [by apply Hfk|].
    apply lookup_by_is_Some. by rewrite Hget.
  - intros k data.
    destruct (lookup_by Expense_id k (expenses st)) as [e|] eqn:Hget.
    + pose proof (lookup_by_Some _ _ _ _ Hget) as [He _].
      unfold update_expense, get_expense_by_id, get_Expense.
      unfold mbind, M_bind, query, raise, mret, M_ret, store_after. rewrite Hget.
      destruct (validate_category_run data st) as [Hcat|(ident & _ & ->)]; [|done].
      rewrite Hcat.
      destruct (validate_amount_run data st) as [->|(x & ->)]; [|done].
      destruct (validate_date_run today data st) as [->|(x & ->)]; [|done].
      unfold commit_Expense.
      destruct (setattr_Expense data e) as [e'|] eqn:Hset; [|done].
      case_decide; [done|]. intros x (o & -> & Ho)%list_elem_of_fmap. cbn.
      case_decide; [|by apply Hfk].
      eapply setattr_Expense_category; [done| |done]. by apply Hfk.
    + unfold update_expense, get_expense_by_id, get_Expense.
      unfold mbind, M_bind, query, raise, store_after. by rewrite Hget.
  - intros k. unfold delete_expense, get_expense_by_id, get_Expense, delete_Expense.
    unfold_M. destruct (lookup_by Expense_id k (expenses st)) as [e|]; [|done].
    intros x [_ Hx]%list_elem_of_filter. by apply Hfk.
Qed.

(** ** The scenarios of the specification *)

(** Create the category "Food", then an expense of 25.50 under it: the
    category's expenses are exactly that one, and the total is 25.50. *)
Example scenario_food_lunch :
  let st1 := store_after (create_category (mkCategoryCreate "Food" None None None)
                            empty_store) in
  let st2 := store_after (create_expense sample_today
                            (mkExpenseCreate (mkDecimal 2550 (-2)) "Lunch" sample_today 1 None)
                            st1) in
  outcome (get_expenses_by_category 1 st2)
  = inr [mkExpense 1 2550 "Lunch" sample_today 1 None]
  ∧ outcome (get_total_expense_amount st2) = inr (mkDecimal 2550 (-2)).
Proof. by vm_compute. Qed.

(** Create the category "X" twice: the second call raises Duplicate and
    the store still holds one category. *)
Example scenario_duplicate_category :
  let st1 := store_after (create_category (mkCategoryCreate "X" None None None)
                            empty_store) in
  create_category (mkCategoryCreate "X" (Some "again") None None) st1
  = (inl (DuplicateEntityException "Category" "name" (Some "X")), st1)
  ∧ categories st1 = [mkCategory 1 "X" None None None].
Proof. by vm_compute. Qed.

(** Names that differ in the case of a letter are different names. *)
Example scenario_case_sensitive_name :
  outcome (create_category (mkCategoryCreate "food" None None None) sample_store)
  = inr (mkCategory 3 "food" None None None).
Proof. by vm_compute. Qed.

(** ** tests/test_services.py *)

Example test_create_duplicate_category :
  let data := mkCategoryCreate "DupCat" (Some "desc") (Some "icon") (Some "#654321") in
  ∃ exn, outcome (create_category data (store_after (create_category data empty_store)))
         = inl exn
         ∧ status_code exn = 409.
Proof. eexists. split; [by vm_compute|done]. Qed.

Example test_get_category_not_found :
  outcome (get_category_by_id 9999 empty_store)
  = inl (EntityNotFoundException "Category" (Some 9999)).
Proof. done. Qed.

Example test_create_expense_invalid_category :
  outcome (create_expense 739000 sample_create empty_store)
  = inl (EntityNotFoundException "Category" (Some 9999)).
Proof. done. Qed.

Example test_get_expenses_by_category :
  let st0 := store_after (create_category
                            (mkCategoryCreate "FilterCat" (Some "desc") (Some "icon")
                               (Some "#222222")) empty_store) in
  let st1 := store_after (create_expense 739000 (sample_expense 1000 "A" "Note A") st0) in
  let st2 := store_after (create_expense 739000 (sample_expense 2000 "B" "Note B") st1) in
  ∃ found, outcome (get_expenses_by_category 1 st2) = inr found
           ∧ length found = 2%nat
           ∧ Forall (λ e, Expense_category_id e = 1) found.
Proof. eexists. split; [by vm_compute|]. split; [done|]. by repeat constructor. Qed.

(** ** The theorems at sample data *)

(** The sample store satisfies the constraints of the engine. *)
Lemma sample_store_wf : store_wf sample_store.
Proof. split; compute_done. Defined.



(** A second "Food", with another icon, is refused. *)
Lemma create_category_duplicate_witness :
  create_category (mkCategoryCreate "Food" None (Some "fas fa-apple") None) sample_store
  = (inl (DuplicateEntityException "Category" "name" (Some "Food")), sample_store)
  ∧ length (filter (λ c, Category_name c = "Food")
              (categories (store_after
                 (create_category (mkCategoryCreate "Food" None (Some "fas fa-apple") None)
                    sample_store)))) = 1%nat.
Proof.
  apply (create_category_duplicate sample_store
           (mkCategoryCreate "Food" None (Some "fas fa-apple") None)).
  - exact sample_store_wf.
  - by left.
Defined.



(** "Transport" cannot be renamed to "Food"; "Food" can. *)
Lemma update_category_name_collision_witness :
  update_category 2 (sample_rename "Food") sample_store
  = (inl (DuplicateEntityException "Category" "name" (Some "Food")), sample_store)
  ∧ ∃ c' st', update_category 1 (sample_rename "Food") sample_store = (inr c', st')
              ∧ Category_name c' = "Food"
              ∧ lookup_by Category_id 1 (categories st') = Some c'.
Proof.
  split.
  - apply (proj1 (update_category_name_collision sample_store
                    (mkCategory 2 "Transport" None None None) (sample_rename "Food") "Food"
                    sample_store_wf ltac:(by right; left) eq_refl)).
    eexists. split; [by left|]. by split.
  - apply (proj2 (update_category_name_collision sample_store
                    (mkCategory 1 "Food" (Some "Groceries, restaurants, snacks")
                       (Some "fas fa-utensils") (Some "#FF6B6B"))
                    (sample_rename "Food") "Food"
                    sample_store_wf ltac:(by left) eq_refl)).
    intros other [->|[->|[]%elem_of_nil]%elem_of_cons]%elem_of_cons; [done|discriminate].
Defined.

(** The counts over the sample store. *)
Lemma get_categories_with_expense_count_correct_witness :
  ∃ result,
    get_categories_with_expense_count sample_store = (inr result, sample_store)
    ∧ result = (λ c, (c, expense_count (Category_id c) sample_store))
               <$> categories sample_store
    ∧ (∀ c, c ∈ categories sample_store →
            (∀ e, e ∈ expenses sample_store → Expense_category_id e ≠ Category_id c) →
            (c, 0) ∈ result).
Proof. exact (get_categories_with_expense_count_correct sample_store sample_store_wf). Defined.


(** * Further properties of the services *)

(** ** Inserting and reading back *)

Lemma lookup_by_snoc_fresh {A : Type} (key : A → Z) (rows : list A) (r : A) :
  key r ∉ key <$> rows → lookup_by key (key r) (rows ++ [r]) = Some r.
Proof.
  induction rows as [|x rows IH]; intros Hfresh.
  - unfold lookup_by. cbn. by rewrite decide_True.
  - rewrite fmap_cons in Hfresh. apply not_elem_of_cons in Hfresh as [Hne Hfresh].
    specialize (IH Hfresh). unfold lookup_by in *. cbn.
    rewrite decide_False by congruence. cbn.
    destruct (list_find _ (rows ++ [r])) as [[i y]|]; cbn in *; congruence.
Qed.

Lemma lookup_by_snoc_other {A : Type} (key : A → Z) (rows : list A) (r : A) (k : Z) :
  k ≠ key r → lookup_by key k (rows ++ [r]) = lookup_by key k rows.
Proof.
  intros Hne. induction rows as [|x rows IH].
  - unfold lookup_by. cbn. by rewrite decide_False by congruence.
  - unfold lookup_by in *. cbn. destruct (decide (key x = k)); cbn; [done|].
    destruct (list_find _ (rows ++ [r])) as [[i y]|], (list_find _ rows) as [[j z]|];
      cbn in *; congruence.
Qed.

(** X1.  [create_category] of a name that no stored category carries
    returns the new category: it has the fields of the payload and an id
    that no stored category had, it is appended to the table, the expenses
    are untouched, and both [get_category_by_id] of its id and
    [get_category_by_name] of its name return it afterwards. *)
Theorem create_category_inserts (st : Store) (data : CategoryCreate) :
  CategoryCreate_name data ∉ Category_name <$> categories st →
  ∃ c st',
    create_category data st = (inr c, st')
    ∧ c = mkCategory (Category_id c) (CategoryCreate_name data)
            (CategoryCreate_description data) (CategoryCreate_icon data)
            (CategoryCreate_color data)
    ∧ (Category_id c ∉ Category_id <$> categories st)
    ∧ categories st' = categories st ++ [c]
    ∧ expenses st' = expenses st
    ∧ get_category_by_id (Category_id c) st' = (inr c, st')
    ∧ get_category_by_name (Some (CategoryCreate_name data)) st' = (inr (Some c), st').
Proof.
  intros Hfree.
  set (c := mkCategory (next_id (Category_id <$> categories st)) (CategoryCreate_name data)
              (CategoryCreate_description data) (CategoryCreate_icon data)
              (CategoryCreate_color data)).
  set (st' := mkStore (categories st ++ [c]) (expenses st)).
  assert (Category_id c ∉ Category_id <$> categories st) as Hfresh by apply next_id_fresh.
  exists c, st'. split; [|split; [done|split; [done|split; [done|split; [done|split]]]]].
  - unfold create_category, get_category_by_name, select_Category_by_name. unfold_M.
    rewrite (filter_absent Category_name) by done. cbn [scalar_one_or_none]. unfold_M.
    unfold add_Category. by rewrite decide_False by done.
  - unfold get_category_by_id, get_Category. unfold_M. cbn [categories st'].
    by rewrite lookup_by_snoc_fresh.
  - unfold get_category_by_name, select_Category_by_name. unfold_M. cbn [categories st'].
    rewrite filter_app, (filter_absent Category_name) by done.
    by rewrite filter_cons_True.
Qed.


(** ** What a failing call leaves behind *)

(** X3.  Whatever [create_category], [delete_category], [create_expense]
    or [delete_expense] raises, the store is left as it was: every check
    of these services comes before their first write. *)
Theorem failed_call_writes_nothing (today : Z) (st st' : Store) (exn : Exception) :
  (∀ data, create_category data st = (inl exn, st') → st' = st)
  ∧ (∀ k, delete_category k st = (inl exn, st') → st' = st)
  ∧ (∀ data, create_expense today data st = (inl exn, st') → st' = st)
  ∧ (∀ k, delete_expense k st = (inl exn, st') → st' = st).
Proof.
  split; [|split; [|split]].
  - intros data. unfold create_category, get_category_by_name, scalar_one_or_none.
    unfold_M. destruct (select_Category_by_name _ st) as [|o [|o' rows]]; unfold_M;
      [|congruence..].
    unfold add_Category. case_decide; congruence.
  - intros k. unfold delete_category, get_category_by_id, get_Category, delete_Category.
    unfold_M. destruct (lookup_by Category_id k (categories st)); congruence.
  - intros data. unfold create_expense, get_Category, add_Expense. unfold_M.
    destruct (lookup_by Category_id _ (categories st)); [|congruence].
    destruct (Decimal_le_0 _); [congruence|]. destruct (today <? _); congruence.
  - intros k. unfold delete_expense, get_expense_by_id, get_Expense, delete_Expense.
    unfold_M. destruct (lookup_by Expense_id k (expenses st)); congruence.
Qed.

(** ** Deleting *)




(** X5.  [delete_category] of a stored category removes that category
    and its expenses and nothing else: every other category and every
    expense of another category stays, so [get_expenses_by_category] of
    any other category answers as before. *)
Theorem delete_category_keeps_the_rest (st : Store) (c : Category) :
  c ∈ categories st →
  ∃ st', delete_category (Category_id c) st = (inr true, st')
         ∧ (∀ o, o ∈ categories st' ↔ o ∈ categories st ∧ Category_id o ≠ Category_id c)
         ∧ (∀ e, e ∈ expenses st' ↔
                 e ∈ expenses st ∧ Expense_category_id e ≠ Category_id c)
         ∧ (∀ k, k ≠ Category_id c →
                 outcome (get_expenses_by_category k st')
                 = outcome (get_expenses_by_category k st)).
Proof.
  intros Hc.
  destruct (lookup_by Category_id (Category_id c) (categories st)) as [c0|] eqn:Hget.
  - apply lookup_by_Some in Hget as Hc0. destruct Hc0 as [_ Hid].
    eexists. split; [|split; [|split]].
    + unfold delete_category, get_category_by_id, get_Category, delete_Category. unfold_M.
      by rewrite Hget.
    + intros o. cbn. rewrite list_elem_of_filter, Hid. tauto.
    + intros e. cbn. rewrite list_elem_of_filter, Hid. tauto.
    + intros k Hk. unfold get_expenses_by_category. unfold_M. cbn. f_equal.
      rewrite list_filter_filter. apply list_filter_iff. intros e. rewrite Hid.
      split; [tauto|]. intros Heq. split; [done|congruence].
  - apply lookup_by_None in Hget. exfalso. apply Hget. by apply list_elem_of_fmap_2.
Qed.

(** ** Looking a category up by its name *)

(** X6.  In a store with unique names [get_category_by_name] never
    raises: it returns the stored category that carries the name, and
    nothing for a name that no category carries or for a null name. *)
Theorem get_category_by_name_unique (st : Store) :
  store_wf st →
  (∀ c, c ∈ categories st →
        get_category_by_name (Some (Category_name c)) st = (inr (Some c), st))
  ∧ (∀ n, n ∉ Category_name <$> categories st →
          get_category_by_name (Some n) st = (inr None, st))
  ∧ get_category_by_name None st = (inr None, st).
Proof.
  intros [_ Hnames _].
  unfold get_category_by_name, select_Category_by_name. unfold_M.
  split; [|split; [|done]].
  - intros c Hc. by rewrite (filter_unique Category_name).
  - intros n Hn. by rewrite (filter_absent Category_name).
Qed.

(** ** Listing and counting *)

Lemma with_expense_count_eq (st : Store) :
  NoDup (Category_id <$> categories st) →
  get_categories_with_expense_count st
  = (inr ((λ c, (c, expense_count (Category_id c) st)) <$> categories st), st).
Proof.
  intros Hids. unfold get_categories_with_expense_count, query, outerjoin. f_equal. f_equal.
  change (λ x : Category,
            match filter (λ y, bool_decide (Category_id x = Expense_category_id y) = true)
                    (expenses st) with
            | [] => [(x, None)]
            | y :: l => (λ y0, (x, Some y0)) <$> y :: l
            end) with (joined_rows (expenses st)).
  rewrite (group_by_blocks (λ row : Category * option Expense, Category_id row.1)
             Category_id (joined_rows (expenses st)));
    [|apply joined_rows_category|apply joined_rows_nonempty|done].
  unfold expense_count. induction (categories st) as [|c cs IH]; [done|].
  rewrite !fmap_cons. cbn [omap list_omap].
  rewrite joined_rows_count, IH; [done|]. by apply NoDup_cons in Hids as [_ ?].
Qed.


Lemma sum_expense_counts (cs : list Category) (es : list Expense) :
  NoDup (Category_id <$> cs) →
  (∀ e, e ∈ es → Expense_category_id e ∈ Category_id <$> cs) →
  foldr (λ c acc,
           Z.of_nat (length (filter (λ e, Expense_category_id e = Category_id c) es)) + acc)
        0 cs
  = Z.of_nat (length es).
Proof.
  revert es. induction cs as [|c cs IH]; intros es Hnd Hfk.
  - cbn. destruct es as [|e es]; [done|].
    by specialize (Hfk e ltac:(left)) as ?%elem_of_nil.
  - rewrite fmap_cons in Hnd. apply NoDup_cons in Hnd as [Hc Hnd]. cbn [foldr].
    pose proof (filter_app_complement (λ e, Expense_category_id e = Category_id c) es) as Hp.
    apply Permutation_length in Hp. rewrite length_app in Hp. rewrite <-Hp.
    set (rest := filter (λ e, ¬ Expense_category_id e = Category_id c) es).
    assert (∀ o, o ∈ cs →
              filter (λ e, Expense_category_id e = Category_id o) es
              = filter (λ e, Expense_category_id e = Category_id o) rest) as Hsame.
    { intros o Ho. unfold rest. rewrite list_filter_filter. apply list_filter_iff.
      intros e. split; [|tauto]. intros Heq. split; [done|]. intros Heq'.
      apply Hc. rewrite <-Heq', Heq. by apply list_elem_of_fmap_2. }
    assert (foldr (λ o acc,
                     Z.of_nat (length (filter (λ e, Expense_category_id e = Category_id o)
                                         es)) + acc) 0 cs
            = Z.of_nat (length rest)) as ->; [|lia].
    rewrite <-(IH rest Hnd).
    + clear -Hsame. induction cs as [|o cs IHcs]; [done|]. cbn [foldr].
      rewrite Hsame by (by left). f_equal. apply IHcs. intros o' Ho'. apply Hsame.
      by right.
    + intros e [Hne He]%list_elem_of_filter.
      apply Hfk in He. rewrite fmap_cons in He. by apply elem_of_cons in He as [?|?].
Qed.

(** X8.  In a store with unique ids where every expense references a
    stored category, the counts of [get_categories_with_expense_count] add
    up to the total of [get_expense_statistics], and there is one pair for
    each category counted by [get_category_statistics]. *)
Theorem expense_counts_add_up (st : Store) :
  store_wf st → store_fk st →
  ∃ result total_expenses total_categories,
    get_categories_with_expense_count st = (inr result, st)
    ∧ get_expense_statistics st = (inr total_expenses, st)
    ∧ get_category_statistics st = (inr total_categories, st)
    ∧ foldr (λ row acc, row.2 + acc) 0 result = total_expenses
    ∧ Z.of_nat (length result) = total_categories.
Proof.
  intros [Hids _ _] Hfk.
  assert (∀ {A B : Type} (f : A → B) (l : list A),
            sql_count ((Some ∘ f) <$> l) = Z.of_nat (length l)) as Hcount.
  { intros A B f l. unfold sql_count. f_equal. induction l as [|x l IH]; [done|].
    rewrite fmap_cons, filter_cons_True by done. cbn. by rewrite IH. }
  eexists _, _, _. split; [by apply with_expense_count_eq|].
  split; [done|]. split; [done|]. split.
  - rewrite Hcount, <-(sum_expense_counts (categories st) (expenses st) Hids Hfk).
    unfold expense_count. clear. induction (categories st) as [|c cs IH]; [done|].
    rewrite fmap_cons. cbn. by rewrite IH.
  - by rewrite Hcount, length_fmap.
Qed.

(** X9.  The bounds of [get_expenses_by_date_range] are both inclusive: an
    expense dated on either bound is returned.  A range whose end is
    before its start returns nothing, and two ranges that meet (the second
    starting the day after the first ends) return together as many expenses
    as the range that spans both. *)
Theorem get_expenses_by_date_range_bounds (st : Store) (a b : Z) :
  (∀ e, e ∈ expenses st → a ≤ b →
        Expense_expense_date e = a ∨ Expense_expense_date e = b →
        ∃ found, get_expenses_by_date_range a b st = (inr found, st) ∧ e ∈ found)
  ∧ (b < a → get_expenses_by_date_range a b st = (inr [], st))
  ∧ (∀ m, a ≤ m + 1 → m ≤ b →
          ∃ l1 l2 l,
            get_expenses_by_date_range a m st = (inr l1, st)
            ∧ get_expenses_by_date_range (m + 1) b st = (inr l2, st)
            ∧ get_expenses_by_date_range a b st = (inr l, st)
            ∧ (length l = length l1 + length l2)%nat).
Proof.
  unfold get_expenses_by_date_range, query. split; [|split].
  - intros e He Hab Hdate. eexists. split; [done|].
    apply list_elem_of_filter. split; [lia|done].
  - intros Hba. do 2 f_equal. apply elem_of_nil_inv.
    intros e [Hdate _]%list_elem_of_filter. lia.
  - intros m Ham Hmb. eexists _, _, _. split; [done|]. split; [done|]. split; [done|].
    induction (expenses st) as [|e es IH]; [done|].
    rewrite !filter_cons. repeat case_decide; cbn; lia.
Qed.



(** ** Updates *)

(** X12.  An update that returns touches one row only: [update_category]
    leaves the expenses, the ids of the categories and every other category
    as they were, and [update_expense] leaves the categories, the ids of
    the expenses and every other expense as they were. *)
Theorem update_leaves_other_rows :
  (∀ st k data c' st',
     update_category k data st = (inr c', st') →
     expenses st' = expenses st
     ∧ Category_id <$> categories st' = Category_id <$> categories st
     ∧ (∀ k', k' ≠ k →
              lookup_by Category_id k' (categories st')
              = lookup_by Category_id k' (categories st)))
  ∧ (∀ today st k data e' st',
     update_expense today k data st = (inr e', st') →
     categories st' = categories st
     ∧ Expense_id <$> expenses st' = Expense_id <$> expenses st
     ∧ (∀ k', k' ≠ k →
              lookup_by Expense_id k' (expenses st')
              = lookup_by Expense_id k' (expenses st))).
Proof.
  split.
  - intros st k data c' st' Hrun.
    destruct (lookup_by Category_id k (categories st)) as [c|] eqn:Hget.
    + pose proof (lookup_by_Some _ _ _ _ Hget) as [_ Hid].
      destruct (update_category_run k data c st Hget) as [Heq|[exn Heq]];
        rewrite Heq in Hrun; [|congruence].
      unfold commit_Category in Hrun.
      destruct (setattr_Category data c) as [c0|] eqn:Hset; [|congruence].
      pose proof (updated_Category_id _ _ _ (setattr_Category_updated _ _ _ Hset)) as Hid0.
      revert Hrun. repeat case_decide; intros [= <- <-]; [done|]. cbn.
      split; [done|]. split; [apply replace_by_keys|].
      intros k' Hk'. apply lookup_by_replace_ne. congruence.
    + unfold update_category, get_category_by_id, get_Category in Hrun. unfold_M.
      rewrite Hget in Hrun. congruence.
  - intros today st k data e' st' Hrun.
    destruct (lookup_by Expense_id k (expenses st)) as [e|] eqn:Hget.
    + pose proof (lookup_by_Some _ _ _ _ Hget) as [_ Hid].
      destruct (update_expense_run today k data e st Hget) as [Heq|[exn Heq]];
        rewrite Heq in Hrun; [|congruence].
      unfold commit_Expense in Hrun.
      destruct (setattr_Expense data e) as [e0|] eqn:Hset; [|congruence].
      pose proof (updated_Expense_id _ _ _ (setattr_Expense_updated _ _ _ Hset)) as Hid0.
      revert Hrun. case_decide; intros [= <- <-]; [done|]. cbn.
      split; [done|]. split; [apply replace_by_keys|].
      intros k' Hk'. apply lookup_by_replace_ne. congruence.
    + unfold update_expense, get_expense_by_id, get_Expense in Hrun.
      unfold mbind, M_bind, query, raise in Hrun. rewrite Hget in Hrun. congruence.
Qed.






(** X15.  In a store with unique names, [update_category] of a stored
    category with a payload that does not set the name always returns, and
    the category it returns is the one then stored under the id, with the
    supplied fields applied. *)
Theorem update_category_without_name_returns (k : Z) (data : CategoryUpdate) (st : Store)
    (c : Category) :
  store_wf st →
  lookup_by Category_id k (categories st) = Some c →
  CategoryUpdate_name data = None →
  ∃ c' st',
    update_category k data st = (inr c', st')
    ∧ lookup_by Category_id k (categories st') = Some c'
    ∧ Category_updated data c c'
    ∧ Category_name c' = Category_name c.
Proof.
  intros [Hids Hnames _] Hget Hname.
  pose proof (lookup_by_Some _ _ _ _ Hget) as [Hc Hid].
  assert (update_category k data st = commit_Category data c st) as Hrun.
  { unfold update_category, get_category_by_id, get_Category. unfold_M.
    by rewrite Hget, Hname. }
  assert (∃ c0, setattr_Category data c = Some c0 ∧ Category_name c0 = Category_name c
                ∧ Category_id c0 = Category_id c) as (c0 & Hset & Hn0 & Hid0).
  { unfold setattr_Category. rewrite Hname. by eexists. }
  destruct (commit_Category data c st) as [[exn|c'] st'] eqn:Hcommit.
  - unfold commit_Category in Hcommit. rewrite Hset in Hcommit.
    repeat case_decide; try done.
    match goal with H : Exists _ _ |- _ => apply Exists_exists in H as (o & Ho & Hon & Hoid) end.
    exfalso. apply Hoid. rewrite Hid0. f_equal.
    apply (unique_inj Category_name (categories st)); [done..|congruence].
  - exists c', st'. split; [done|].
    pose proof (commit_Category_updated _ _ _ _ _ Hcommit) as Hupd.
    split; [|split; [done|]].
    + eapply commit_Category_success in Hcommit as [Hlook|[-> ->]].
      * by rewrite <-Hid.
      * done.
      * by apply list_elem_of_fmap_2.
    + pose proof (updated_Category_name _ _ _ Hupd) as Hn. rewrite Hname in Hn.
      by injection Hn.
Qed.

(** ** Pages *)

(** X16.  [PaginatedResponse.create] returns a response exactly when the
    page is at least 1 and the size is between 1 and 100; the response
    carries the items, total, page and size it was given, and its number of
    pages is the least number of pages of that size that hold [total]
    items.  In particular no response with zero pages is made for a
    positive total. *)
Theorem PaginatedResponse_create_pages {T : Type} (items : list T) (total page size : Z) :
  (1 ≤ page ∧ 1 ≤ size ≤ 100 →
     ∃ r, PaginatedResponse_create items total page size = Some r
          ∧ PaginatedResponse_items r = items
          ∧ PaginatedResponse_total r = total
          ∧ PaginatedResponse_page r = page
          ∧ PaginatedResponse_size r = size
          ∧ total ≤ PaginatedResponse_pages r * size
          ∧ (PaginatedResponse_pages r - 1) * size < total)
  ∧ (¬ (1 ≤ page ∧ 1 ≤ size ≤ 100) → PaginatedResponse_create items total page size = None).
Proof.
  unfold PaginatedResponse_create, PaginatedResponse_valid. cbn. split.
  - intros (Hpage & Hsize1 & Hsize2).
    rewrite (proj2 (Z.leb_le 1 page)), (proj2 (Z.leb_le 1 size)),
      (proj2 (Z.leb_le size 100)), (proj2 (Z.ltb_lt 0 size)) by lia.
    eexists. split; [done|]. cbn. repeat (split; [done|]).
    pose proof (Z.div_mod (total + size - 1) size ltac:(lia)) as Hdm.
    pose proof (Z.mod_pos_bound (total + size - 1) size ltac:(lia)) as Hmod.
    set (q := (total + size - 1) / size) in *.
    set (r := (total + size - 1) mod size) in *.
    clearbody q r. split; nia.
  - intros Hbad.
    destruct (1 <=? page) eqn:H1; [|done]. destruct (1 <=? size) eqn:H2; [|done].
    destruct (size <=? 100) eqn:H3; [|done]. exfalso. apply Hbad. lia.
Qed.

(** ** Seeding *)

Lemma sql_count_Some {A B : Type} (f : A → B) (l : list A) :
  sql_count (Some ∘ f <$> l) = Z.of_nat (length l).
Proof.
  unfold sql_count. f_equal. induction l as [|x l IH]; [done|].
  rewrite fmap_cons, filter_cons_True by done. cbn. by rewrite IH.
Qed.

Lemma to_numeric_2_hundredths (a : Z) : to_numeric_2 (mkDecimal a (-2)) = a.
Proof.
  unfold to_numeric_2. cbn [coefficient exponent].
  change (0 <=? -2 + 2) with true. change (10 ^ (-2 + 2)) with 1. cbn iota. lia.
Qed.

Lemma add_seed_expenses_spec (today : Z) (category_objs : list Category) (draws : list Draw)
    (st : Store) :
  length category_objs = length CATEGORIES →
  Forall Draw_in_range draws →
  NoDup (Expense_id <$> expenses st) →
  ∃ new,
    add_seed_expenses today category_objs draws st
    = (inr (), mkStore (categories st) (expenses st ++ new))
    ∧ length new = length draws
    ∧ Forall (seeded_expense today category_objs) new
    ∧ NoDup (Expense_id <$> expenses st ++ new).
Proof.
  intros Hlen Hdraws. revert st. induction Hdraws as [|d draws Hd Hdraws IH]; intros st Hnd.
  - exists []. rewrite app_nil_r. by destruct st.
  - destruct Hd as (Hcat & Hamount & Hdesc & Hdays).
    destruct (lookup_lt_is_Some_2 category_objs (Draw_category d)) as [c Hc]; [lia|].
    destruct (lookup_lt_is_Some_2 EXPENSE_DESCRIPTIONS (Draw_description d)) as [s Hs];
      [done|].
    cbn [add_seed_expenses]. unfold add_seed_expense. rewrite Hc, Hs.
    unfold add_Expense. unfold_M.
    cbn [ExpenseCreate_amount ExpenseCreate_description ExpenseCreate_expense_date
         ExpenseCreate_category_id ExpenseCreate_notes].
    rewrite to_numeric_2_hundredths.
    set (e := mkExpense (next_id (Expense_id <$> expenses st)) (Draw_amount d) s
                (today - Draw_days_ago d) (Category_id c) None).
    assert (NoDup (Expense_id <$> expenses st ++ [e])) as Hnd'.
    { rewrite fmap_app. apply NoDup_snoc_fresh; [done|apply next_id_fresh]. }
    destruct (IH (mkStore (categories st) (expenses st ++ [e])) Hnd')
      as (new & Hrun & Hnew & Hall & Hnd'').
    exists (e :: new). rewrite Hrun. cbn [categories expenses] in *.
    rewrite <-app_assoc in *. split; [done|]. split; [cbn; lia|]. split; [|done].
    constructor; [|done]. split; [done|]. split; [cbn; lia|].
    split; [by eapply list_elem_of_lookup_2|]. split; [|done].
    cbn. apply list_elem_of_fmap_2. by eapply list_elem_of_lookup_2.
Qed.

(** X17.  [seed_database] does nothing to a store that holds a category.
    On the empty store, whatever the random draws are (within their
    ranges), it stores the six categories of [CATEGORIES] under the ids 1
    to 6 and one expense for each draw; every seeded expense has an amount
    between 5.00 and 500.00, a date within the last 30 days, a description
    of [EXPENSE_DESCRIPTIONS] and a seeded category; the constraints of the
    store hold; and seeding again changes nothing. *)
Theorem seed_database_once (today : Z) (draws : list Draw) :
  (∀ st, categories st ≠ [] → seed_database today draws st = (inr (), st))
  ∧ (draws_in_range draws →
     ∃ st', seed_database today draws empty_store = (inr (), st')
            ∧ Category_name <$> categories st' = CategoryCreate_name <$> CATEGORIES
            ∧ Category_id <$> categories st' = [1; 2; 3; 4; 5; 6]
            ∧ length (expenses st') = length draws
            ∧ Forall (seeded_expense today (categories st')) (expenses st')
            ∧ store_wf st' ∧ store_fk st'
            ∧ seed_database today draws st' = (inr (), st')).
Proof.
  assert (∀ st, categories st ≠ [] → seed_database today draws st = (inr (), st)) as Hskip.
  { intros st Hne. unfold seed_database. unfold_M. rewrite sql_count_Some.
    destruct (categories st) as [|c cs]; [done|].
    by rewrite (proj2 (Z.ltb_lt 0 _)) by (cbn [length]; lia). }
  split; [done|]. intros [_ Hdraws].
  set (objs := [mkCategory 1 "Food" (Some "Groceries, restaurants, snacks")
                  (Some "fas fa-utensils") (Some "#FF6B6B");
                mkCategory 2 "Transport" (Some "Public transport, fuel, taxi")
                  (Some "fas fa-car") (Some "#4ECDC4");
                mkCategory 3 "Entertainment" (Some "Movies, concerts, games")
                  (Some "fas fa-film") (Some "#45B7D1");
                mkCategory 4 "Shopping" (Some "Clothes, gifts, online shopping")
                  (Some "fas fa-shopping-bag") (Some "#96CEB4");
                mkCategory 5 "Bills" (Some "Utilities, rent, subscriptions")
                  (Some "fas fa-file-invoice") (Some "#FECA57");
                mkCategory 6 "Health" (Some "Medicine, doctor, gym") (Some "fas fa-medkit")
                  (Some "#FF9FF3")]).
  destruct (add_seed_expenses_spec today objs draws (mkStore objs []) eq_refl Hdraws)
    as (new & Hrun & Hlen & Hall & Hnd); [constructor|].
  cbn [categories expenses app] in *.
  assert (seed_database today draws empty_store = (inr (), mkStore objs new)) as Hseed.
  { assert (transaction (add_categories CATEGORIES) empty_store
            = (inr objs, mkStore objs [])) as Hcats by (vm_compute; reflexivity).
    unfold seed_database. unfold_M.
    change (0 <? sql_count (Some ∘ Category_id <$> categories empty_store)) with false.
    cbn beta iota. rewrite Hcats. unfold transaction. by rewrite Hrun. }
  exists (mkStore objs new). split; [done|]. cbn [categories expenses].
  split; [done|]. split; [done|]. split; [done|]. split; [done|].
  split; [|split].
  - split; cbn [categories expenses]; [compute_done|compute_done|done].
  - intros e He. cbn [categories expenses] in *.
    rewrite Forall_forall in Hall. by destruct (Hall e He) as (_ & _ & _ & ? & _).
  - by apply Hskip.
Qed.

(** ** The routes of the categories *)

Lemma next_count_unique (f : Category → Z) (cs : list Category) (c : Category) :
  NoDup (Category_id <$> cs) → c ∈ cs →
  next_count c ((λ o, (o, f o)) <$> cs) = f c.
Proof.
  unfold next_count. induction cs as [|x cs IH]; [by intros _ ?%elem_of_nil|].
  rewrite fmap_cons, NoDup_cons. intros [Hx Hnd] Hc. cbn.
  destruct (decide (Category_id x = Category_id c)) as [Heq|Hne]; cbn.
  - apply elem_of_cons in Hc as [->|Hc]; [done|].
    exfalso. apply Hx. rewrite Heq. by apply list_elem_of_fmap_2.
  - apply elem_of_cons in Hc as [->|Hc]; [done|]. specialize (IH Hnd Hc).
    destruct (list_find _ _) as [[i row]|]; cbn in *; done.
Qed.

Lemma new_CategoryResponse_presentable (st : Store) (c : Category) :
  Category_presentable c →
  new_CategoryResponse c (expense_count (Category_id c) st) st
  = (inr (CategoryResponse_of st c), st).
Proof.
  unfold Category_presentable, new_CategoryResponse, CategoryResponse_valid. cbn.
  rewrite !andb_true_iff. intros [Hfields _].
  destruct Hfields as [[[-> ->] ->] ->]. cbn.
  by rewrite (proj2 (Z.leb_le 0 (expense_count _ _))) by (unfold expense_count; lia).
Qed.


(** X19.  GET /api/categories/search answers, for the name of a stored
    category that the response model accepts, with that category and the
    number of its expenses; for a name that no category carries it answers
    404, which the handler passes on as it is. *)
Theorem search_category_by_name_route_answers (st : Store) :
  store_wf st →
  (∀ c, c ∈ categories st → Category_presentable c →
        search_category_by_name_route (Category_name c) st
        = (inr (CategoryResponse_of st c), st))
  ∧ (∀ n, n ∉ Category_name <$> categories st →
          search_category_by_name_route n st = (inl (HTTPException 404), st)).
Proof.
  intros [Hids Hnames _]. split.
  - intros c Hc Hok.
    assert (get_category_by_name (Some (Category_name c)) st = (inr (Some c), st)) as Hfind.
    { unfold get_category_by_name, select_Category_by_name. unfold_M.
      by rewrite (filter_unique Category_name). }
    unfold search_category_by_name_route, try_except, await. unfold mbind, R_bind.
    rewrite Hfind, (with_expense_count_eq st Hids).
    rewrite (next_count_unique (λ o, expense_count (Category_id o) st)) by done.
    by rewrite new_CategoryResponse_presentable.
  - intros n Hn.
    assert (get_category_by_name (Some n) st = (inr None, st)) as Hfind.
    { unfold get_category_by_name, select_Category_by_name. unfold_M.
      by rewrite (filter_absent Category_name). }
    unfold search_category_by_name_route, try_except, await. unfold mbind, R_bind.
    by rewrite Hfind.
Qed.

(** ** The search route of the expenses *)

Lemma new_ExpenseResponses_presentable (st : Store) (l : list Expense) :
  (∀ e, e ∈ l → Expense_presentable e) →
  new_ExpenseResponses l st = (inr (ExpenseResponse_of st <$> l), st).
Proof.
  induction l as [|e l IH]; intros Hok; [done|].
  cbn [new_ExpenseResponses]. unfold mbind, R_bind, mret, R_ret.
  assert (new_ExpenseResponse e st = (inr (ExpenseResponse_of st e), st)) as ->.
  { unfold new_ExpenseResponse.
    replace (ExpenseResponse_valid (ExpenseResponse_of st e)) with true; [done|].
    symmetry. apply (Hok e). by left. }
  rewrite IH by (intros x Hx; apply Hok; by right). done.
Qed.

(** X20.  GET /api/expenses/search, in a store whose expenses the response
    model accepts, answers with the responses for the rows of one service
    call: [search_expenses] when a keyword that is not empty is given,
    whatever dates come with it; otherwise [get_expenses_by_date_range]
    from the start date to the end date, or to today when only the start
    date is given; otherwise the first 50 rows, a lone end date being
    ignored. *)
Theorem search_expenses_route_dispatch (today : Z) (st : Store)
    (start_date end_date : option Z) :
  (∀ e, e ∈ expenses st → Expense_presentable e) →
  (∀ k, k ≠ "" →
     ∃ found, search_expenses k st = (inr found, st)
              ∧ search_expenses_route today (Some k) start_date end_date st
                = (inr (ExpenseResponse_of st <$> found), st))
  ∧ (∀ keyword, keyword = None ∨ keyword = Some "" →
     (∀ s e, start_date = Some s → end_date = Some e →
        ∃ found, get_expenses_by_date_range s e st = (inr found, st)
                 ∧ search_expenses_route today keyword start_date end_date st
                   = (inr (ExpenseResponse_of st <$> found), st))
     ∧ (∀ s, start_date = Some s → end_date = None →
        ∃ found, get_expenses_by_date_range s today st = (inr found, st)
                 ∧ search_expenses_route today keyword start_date end_date st
                   = (inr (ExpenseResponse_of st <$> found), st))
     ∧ (start_date = None →
        ∃ found, get_all_expenses 0 50 st = (inr found, st)
                 ∧ search_expenses_route today keyword start_date end_date st
                   = (inr (ExpenseResponse_of st <$> found), st))).
Proof.
  intros Hok.
  assert (∀ (m : M (list Expense)) found,
            m st = (inr found, st) → (∀ e, e ∈ found → e ∈ expenses st) →
            try_except (expenses ← await m; new_ExpenseResponses expenses)
              (λ _, HTTPException 500) st
            = (inr (ExpenseResponse_of st <$> found), st)) as Hanswer.
  { intros m found Hm Hsub. unfold try_except, await. unfold mbind, R_bind.
    rewrite Hm. rewrite new_ExpenseResponses_presentable; [done|].
    intros e He. by apply Hok, Hsub. }
  split.
  - intros k Hk. eexists. split; [done|].
    unfold search_expenses_route. rewrite bool_decide_eq_true_2 by done.
    apply Hanswer; [done|]. by intros e [_ ?]%list_elem_of_filter.
  - intros keyword Hkw.
    assert (∀ found (m : M (list Expense)),
              match start_date, end_date with
              | Some s, Some e => await (get_expenses_by_date_range s e)
              | Some s, None => await (get_expenses_by_date_range s today)
              | None, _ => await (get_all_expenses 0 50)
              end = await m →
              m st = (inr found, st) → (∀ e, e ∈ found → e ∈ expenses st) →
              search_expenses_route today keyword start_date end_date st
              = (inr (ExpenseResponse_of st <$> found), st)) as Hdates.
    { intros found m Heq Hm Hsub. unfold search_expenses_route. cbn zeta.
      rewrite Heq. destruct Hkw as [->| ->]; [by apply Hanswer|].
      rewrite bool_decide_eq_false_2 by (intros Hne; by apply Hne). by apply Hanswer. }
    split; [|split].
    + intros s e -> ->. eexists. split; [done|]. eapply Hdates; [done|done|].
      by intros x [_ ?]%list_elem_of_filter.
    + intros s -> ->. eexists. split; [done|]. eapply Hdates; [done|done|].
      by intros x [_ ?]%list_elem_of_filter.
    + intros ->. eexists. split; [done|]. eapply Hdates; [by destruct end_date|done|].
      intros x Hx. cbn in Hx. by apply subseteq_take in Hx.
Qed.

(** ** The further properties at sample data *)

Lemma sample_store_2_wf : store_wf sample_store_2.
Proof. split; compute_done. Defined.

Lemma sample_store_2_fk : store_fk sample_store_2.
Proof.
  intros e [->|[->|[]%elem_of_nil]%elem_of_cons]%elem_of_cons; compute_done.
Defined.

Lemma sample_store_2_presentable : ∀ e, e ∈ expenses sample_store_2 → Expense_presentable e.
Proof.
  intros e [->|[->|[]%elem_of_nil]%elem_of_cons]%elem_of_cons; reflexivity.
Defined.

(** A category "Health" can be added to the sample store and read back. *)
Lemma create_category_inserts_witness :
  ∃ c st', create_category (mkCategoryCreate "Health" None None None) sample_store
           = (inr c, st')
           ∧ get_category_by_id (Category_id c) st' = (inr c, st').
Proof.
  destruct (create_category_inserts sample_store (mkCategoryCreate "Health" None None None))
    as (c & st' & Hrun & _ & _ & _ & _ & Hget & _); [compute_done|].
  by exists c, st'.
Defined.


(** The refused payload of the sample store leaves it as it was. *)
Lemma failed_call_writes_nothing_witness :
  create_expense sample_today sample_create_invalid sample_store
  = (inl (EntityNotFoundException "Category" (Some 9999)), sample_store)
  ∧ sample_store = sample_store.
Proof.
  assert (create_expense sample_today sample_create_invalid sample_store
          = (inl (EntityNotFoundException "Category" (Some 9999)), sample_store)) as Hrun
    by reflexivity.
  split; [exact Hrun|].
  exact (proj1 (proj2 (proj2 (failed_call_writes_nothing sample_today sample_store
                                sample_store
                                (EntityNotFoundException "Category" (Some 9999)))))
           sample_create_invalid Hrun).
Defined.


(** Deleting "Food" leaves the expenses of "Transport". *)
Lemma delete_category_keeps_the_rest_witness :
  ∃ st', delete_category 1 sample_store_2 = (inr true, st')
         ∧ outcome (get_expenses_by_category 2 st')
           = outcome (get_expenses_by_category 2 sample_store_2).
Proof.
  destruct (delete_category_keeps_the_rest sample_store_2 sample_food)
    as (st' & Hrun & _ & _ & Hkeep); [by left|].
  exists st'. split; [exact Hrun|]. by apply Hkeep.
Defined.

(** "Food" is found by its name; "food" is not. *)
Lemma get_category_by_name_unique_witness :
  get_category_by_name (Some "Food") sample_store = (inr (Some sample_food), sample_store)
  ∧ get_category_by_name (Some "food") sample_store = (inr None, sample_store).
Proof.
  destruct (get_category_by_name_unique sample_store sample_store_wf) as (Hfound & Hnone & _).
  split.
  - apply (Hfound sample_food). by left.
  - apply Hnone. compute_done.
Defined.


(** The counts of the two categories add up to the two expenses. *)
Lemma expense_counts_add_up_witness :
  ∃ result total_expenses total_categories,
    get_categories_with_expense_count sample_store_2 = (inr result, sample_store_2)
    ∧ get_expense_statistics sample_store_2 = (inr total_expenses, sample_store_2)
    ∧ get_category_statistics sample_store_2 = (inr total_categories, sample_store_2)
    ∧ foldr (λ row acc, row.2 + acc) 0 result = total_expenses
    ∧ Z.of_nat (length result) = total_categories.
Proof. exact (expense_counts_add_up sample_store_2 sample_store_2_wf sample_store_2_fk). Defined.

(** The ten days up to the lunch split into two ranges that meet. *)
Lemma get_expenses_by_date_range_bounds_witness :
  ∃ l1 l2 l,
    get_expenses_by_date_range 738990 738995 sample_store_2 = (inr l1, sample_store_2)
    ∧ get_expenses_by_date_range (738995 + 1) 739000 sample_store_2 = (inr l2, sample_store_2)
    ∧ get_expenses_by_date_range 738990 739000 sample_store_2 = (inr l, sample_store_2)
    ∧ (length l = length l1 + length l2)%nat.
Proof.
  apply (proj2 (proj2 (get_expenses_by_date_range_bounds sample_store_2 738990 739000))
           738995); lia.
Defined.



(** The correction of the lunch leaves the taxi ride alone. *)
Lemma update_leaves_other_rows_witness :
  ∃ e' st', update_expense sample_today 1 sample_correction sample_store_2 = (inr e', st')
            ∧ lookup_by Expense_id 2 (expenses st')
              = lookup_by Expense_id 2 (expenses sample_store_2).
Proof.
  destruct (update_expense sample_today 1 sample_correction sample_store_2)
    as [[exn|e'] st'] eqn:Hrun; [by vm_compute in Hrun|].
  exists e', st'. split; [reflexivity|].
  destruct (proj2 update_leaves_other_rows sample_today sample_store_2 1 sample_correction
              e' st' Hrun) as (_ & _ & Hother).
  by apply Hother.
Defined.



(** Clearing the description of "Food" returns and keeps its name. *)
Lemma update_category_without_name_returns_witness :
  ∃ c' st',
    update_category 1 (mkCategoryUpdate None (Some None) None None) sample_store
    = (inr c', st')
    ∧ lookup_by Category_id 1 (categories st') = Some c'
    ∧ Category_updated (mkCategoryUpdate None (Some None) None None) sample_food c'
    ∧ Category_name c' = Category_name sample_food.
Proof.
  apply (update_category_without_name_returns 1 (mkCategoryUpdate None (Some None) None None)
           sample_store sample_food sample_store_wf); reflexivity.
Defined.

(** Twenty-five items in pages of ten make three pages. *)
Lemma PaginatedResponse_create_pages_witness :
  ∃ r, PaginatedResponse_create (@nil Z) 25 1 10 = Some r
       ∧ 25 ≤ PaginatedResponse_pages r * 10
       ∧ (PaginatedResponse_pages r - 1) * 10 < 25.
Proof.
  destruct (proj1 (PaginatedResponse_create_pages (@nil Z) 25 1 10))
    as (r & Hrun & _ & _ & _ & _ & Hle & Hlt); [lia|].
  by exists r.
Defined.

Lemma sample_draws_in_range : draws_in_range sample_draws.
Proof.
  split; [cbn; lia|]. repeat constructor; cbn; lia.
Defined.

(** Seeding the empty store with the sample draws, and seeding again. *)
Lemma seed_database_once_witness :
  ∃ st', seed_database sample_today sample_draws empty_store = (inr (), st')
         ∧ Category_id <$> categories st' = [1; 2; 3; 4; 5; 6]
         ∧ length (expenses st') = length sample_draws
         ∧ seed_database sample_today sample_draws st' = (inr (), st').
Proof.
  destruct (proj2 (seed_database_once sample_today sample_draws) sample_draws_in_range)
    as (st' & Hrun & _ & Hids & Hlen & _ & _ & _ & Hagain).
  exists st'. split; [exact Hrun|]. split; [exact Hids|]. split; [exact Hlen|exact Hagain].
Defined.


(** The search for "Food" answers with it; the search for "Rent" with 404. *)
Lemma search_category_by_name_route_answers_witness :
  search_category_by_name_route "Food" sample_store_2
  = (inr (CategoryResponse_of sample_store_2 sample_food), sample_store_2)
  ∧ search_category_by_name_route "Rent" sample_store_2
    = (inl (HTTPException 404), sample_store_2).
Proof.
  destruct (search_category_by_name_route_answers sample_store_2 sample_store_2_wf)
    as [Hfound Hnone].
  split.
  - apply (Hfound sample_food); [by left|reflexivity].
  - apply Hnone. compute_done.
Defined.

(** With the keyword "taxi" the dates of the request are not looked at. *)
Lemma search_expenses_route_dispatch_witness :
  ∃ found, search_expenses "taxi" sample_store_2 = (inr found, sample_store_2)
           ∧ search_expenses_route sample_today (Some "taxi") (Some 739000) None
               sample_store_2
             = (inr (ExpenseResponse_of sample_store_2 <$> found), sample_store_2).
Proof.
  apply (proj1 (search_expenses_route_dispatch sample_today sample_store_2 (Some 739000) None
                  sample_store_2_presentable)).
  discriminate.
Defined.

(** ** The pages of the expense list *)

Lemma get_all_expenses_route_page (st : Store) (page size : Z) :
  (∀ e, e ∈ expenses st → Expense_presentable e) →
  1 ≤ page → 1 ≤ size →
  get_all_expenses_route page size st
  = (inr (ExpenseResponse_of st
            <$> take (Z.to_nat size) (drop (Z.to_nat ((page - 1) * size)) (expenses st))),
     st).
Proof.
  intros Hok Hpage Hsize.
  unfold get_all_expenses_route, try_except, await, get_all_expenses, query.
  unfold mbind, R_bind. rewrite (proj2 (Z.ltb_ge size 0)) by lia.
  rewrite new_ExpenseResponses_presentable; [done|].
  intros e He%subseteq_take%subseteq_drop. by apply Hok.
Qed.

(** X21.  The pages of GET /api/expenses/ tile the table: in a store whose
    expenses the response model accepts, and for a page size of at least
    1, the answers for the pages 1 to [n] are, one after the other, the
    responses for the first [n * size] expenses; read up to the number of
    pages that [PaginatedResponse.create] computes for the table, they are
    the responses for every expense, each once and in table order. *)
Theorem get_all_expenses_route_pages_tile (st : Store) (size : Z) :
  (∀ e, e ∈ expenses st → Expense_presentable e) →
  1 ≤ size →
  (∀ n, pages_through n size st
        = ExpenseResponse_of st <$> take (n * Z.to_nat size) (expenses st))
  ∧ (∀ page r,
       PaginatedResponse_create (expenses st) (Z.of_nat (length (expenses st))) page size
       = Some r →
       pages_through (Z.to_nat (PaginatedResponse_pages r)) size st
       = ExpenseResponse_of st <$> expenses st).
Proof.
  intros Hok Hsize.
  assert (∀ n, pages_through n size st
               = ExpenseResponse_of st <$> take (n * Z.to_nat size) (expenses st)) as Htile.
  { induction n as [|n IH]; [done|].
    cbn [pages_through]. rewrite IH, get_all_expenses_route_page by (done || lia).
    unfold body_of. cbn [fst]. rewrite <-fmap_app. f_equal.
    replace (Z.to_nat ((Z.of_nat (S n) - 1) * size)) with (n * Z.to_nat size)%nat
      by (rewrite Z2Nat.inj_mul by lia; f_equal; lia).
    rewrite take_take_drop. f_equal. lia. }
  split; [done|]. intros page r Hcreate.
  unfold PaginatedResponse_create in Hcreate.
  destruct (PaginatedResponse_valid _); [|done]. injection Hcreate as <-.
  cbn [PaginatedResponse_pages]. rewrite (proj2 (Z.ltb_lt 0 size)) by lia.
  rewrite Htile, take_ge; [done|].
  set (total := Z.of_nat (length (expenses st))).
  pose proof (Z.div_mod (total + size - 1) size ltac:(lia)) as Hdm.
  pose proof (Z.mod_pos_bound (total + size - 1) size ltac:(lia)) as Hmod.
  assert (0 ≤ (total + size - 1) / size) as Hq by (apply Z.div_pos; lia).
  assert (total ≤ (total + size - 1) / size * size) as Hle.
  { set (q := (total + size - 1) / size) in *. set (m := (total + size - 1) mod size) in *.
    clearbody q m. nia. }
  apply Nat2Z.inj_le. rewrite Nat2Z.inj_mul, !Z2Nat.id by lia. done.
Qed.

(** ** The edit form of an expense *)

Lemma update_expense_null_field (today eid : Z) (data : ExpenseUpdate) (st : Store) :
  ExpenseUpdate_amount data = Some None
  ∨ ExpenseUpdate_expense_date data = Some None
  ∨ ExpenseUpdate_category_id data = Some None →
  ∃ exn, update_expense today eid data st = (inl exn, st).
Proof.
  intros Hnull. unfold update_expense, get_expense_by_id, get_Expense.
  unfold mbind, M_bind, query, raise, mret, M_ret.
  destruct (lookup_by Expense_id eid (expenses st)) as [e|]; [|by eexists].
  destruct (validate_category_run data st) as [Hcat|(ident & _ & ->)]; [|by eexists].
  rewrite Hcat.
  destruct (validate_amount_run data st) as [Hamount|[exn ->]]; [|by eexists].
  rewrite Hamount.
  destruct (validate_date_run today data st) as [Hdate|[exn ->]]; [|by eexists].
  exfalso. destruct Hnull as [Hnull|[Hnull|Hnull]].
  - unfold validate_amount in Hamount. by rewrite Hnull in Hamount.
  - unfold validate_date in Hdate. by rewrite Hnull in Hdate.
  - unfold validate_category, get_Category in Hcat. by rewrite Hnull in Hcat.
Qed.

Lemma update_expense_unknown (today eid : Z) (data : ExpenseUpdate) (st : Store) :
  lookup_by Expense_id eid (expenses st) = None →
  update_expense today eid data st
  = (inl (EntityNotFoundException "Expense" (Some eid)), st).
Proof.
  intros Hget. unfold update_expense, get_expense_by_id, get_Expense.
  unfold mbind, M_bind, query, raise. by rewrite Hget.
Qed.

(** X22.  POST /expenses/{id}/edit passes every form field to
    [ExpenseUpdate], so a field that is left empty reaches the service as a
    null that was set.  A form that leaves the amount, the date or the
    category empty therefore never updates the expense, whatever the other
    fields hold and whatever [Decimal] and [date.fromisoformat] make of
    them: the handler answers with the error page or with the form again,
    or lets NotFound for the expense escape, and the store is left as it
    was.  For an id that is not stored the handler never answers with the
    form: its recovery fetches the expense again, and that NotFound
    escapes. *)
Theorem update_expense_form_needs_every_field (Decimal_of_str : string → option Decimal)
    (fromisoformat : string → option Z) (today expense_id : Z)
    (amount description expense_date : option string) (category_id : option Z)
    (notes : option string) (st : Store) :
  (left_empty amount ∨ left_empty expense_date ∨ category_id = None →
     ∃ result,
       update_expense_form Decimal_of_str fromisoformat today expense_id amount description
         expense_date category_id notes st = (result, st)
       ∧ (result = inr (TemplateResponse "error.html")
          ∨ result = inr (TemplateResponse "expenses/form.html")
          ∨ result = inl (AppException (EntityNotFoundException "Expense"
                                          (Some expense_id)))))
  ∧ (expense_id ∉ Expense_id <$> expenses st →
     ∃ result,
       update_expense_form Decimal_of_str fromisoformat today expense_id amount description
         expense_date category_id notes st = (result, st)
       ∧ (result = inr (TemplateResponse "error.html")
          ∨ result = inl (AppException (EntityNotFoundException "Expense"
                                          (Some expense_id))))).
Proof.
  assert (∀ (a : option Decimal) (d : option Z) data,
            new_ExpenseUpdate a description d category_id notes st = (inr data, st) →
            ExpenseUpdate_amount data = Some a
            ∧ ExpenseUpdate_expense_date data = Some d
            ∧ ExpenseUpdate_category_id data = Some category_id) as Hdata.
  { intros a d data. unfold new_ExpenseUpdate.
    destruct (ExpenseUpdate_valid _); [|done]. by intros [= <-]. }
  assert (∀ (a : option Decimal) (d : option Z),
            (∃ data, new_ExpenseUpdate a description d category_id notes st = (inr data, st))
            ∨ new_ExpenseUpdate a description d category_id notes st
              = (inl ValidationError, st)) as Hnew.
  { intros a d. unfold new_ExpenseUpdate.
    destruct (ExpenseUpdate_valid _); [left; by eexists|by right]. }
  assert (∀ {A : Type} (parser : string → option A) field,
            (∃ v, parse_field parser field st = (inr v, st)
                  ∧ (left_empty field → v = None))
            ∨ parse_field parser field st = (inl ParseError, st)) as Hparse.
  { intros A parser field. unfold parse_field.
    destruct field as [text|]; [|left; by eexists].
    case_bool_decide as Hne.
    - destruct (parser text) as [v|]; [|by right].
      left. eexists. split; [done|]. by intros [?|[= ->]].
    - left. by eexists. }
  split.
  - intros Hempty. unfold update_expense_form, try_catch. unfold mbind, R_bind.
    destruct (Hparse _ Decimal_of_str amount) as [(a & -> & Ha)| ->]; [|by eexists; eauto].
    destruct (Hparse _ fromisoformat expense_date) as [(d & -> & Hd)| ->];
      [|by eexists; eauto].
    destruct (Hnew a d) as [[data Hmake]|Hmake]; rewrite Hmake; [|by eexists; eauto].
    destruct (Hdata _ _ _ Hmake) as (Hamount & Hdate & Hcategory).
    assert (ExpenseUpdate_amount data = Some None
            ∨ ExpenseUpdate_expense_date data = Some None
            ∨ ExpenseUpdate_category_id data = Some None) as Hnull.
    { destruct Hempty as [He|[He|He]].
      - left. by rewrite Hamount, (Ha He).
      - right; left. by rewrite Hdate, (Hd He).
      - right; right. by rewrite Hcategory, He. }
    unfold await.
    destruct (update_expense_null_field today expense_id data st Hnull) as [exn ->].
    unfold get_expense_by_id, get_Expense, get_all_categories.
    unfold mbind, M_bind, query, raise, mret, M_ret, R_ret.
    destruct exn; try (by eexists; eauto);
      (destruct (lookup_by Expense_id expense_id (expenses st)); by eexists; eauto).
  - intros Hmissing%lookup_by_None. unfold update_expense_form, try_catch.
    unfold mbind, R_bind.
    destruct (Hparse _ Decimal_of_str amount) as [(a & -> & _)| ->]; [|by eexists; eauto].
    destruct (Hparse _ fromisoformat expense_date) as [(d & -> & _)| ->];
      [|by eexists; eauto].
    destruct (Hnew a d) as [[data Hmake]|Hmake]; rewrite Hmake; [|by eexists; eauto].
    unfold await. rewrite (update_expense_unknown today expense_id data st Hmissing).
    unfold get_expense_by_id, get_Expense. unfold mbind, M_bind, query, raise.
    rewrite Hmissing. by eexists; eauto.
Qed.

(** Two pages of one expense each give both expenses of the sample store. *)
Lemma get_all_expenses_route_pages_tile_witness :
  pages_through 2 1 sample_store_2
  = ExpenseResponse_of sample_store_2 <$> [sample_lunch; sample_taxi]
  ∧ ∃ r, PaginatedResponse_create (expenses sample_store_2) 2 1 1 = Some r
         ∧ pages_through (Z.to_nat (PaginatedResponse_pages r)) 1 sample_store_2
           = ExpenseResponse_of sample_store_2 <$> expenses sample_store_2.
Proof.
  destruct (get_all_expenses_route_pages_tile sample_store_2 1 sample_store_2_presentable)
    as [Htile Hall]; [lia|].
  split; [exact (Htile 2%nat)|].
  eexists. split; [reflexivity|]. by apply (Hall 1).
Defined.

(** The edit form of the lunch sent without an amount, and the same form
    sent for an expense that is not stored. *)
Lemma update_expense_form_needs_every_field_witness :
  (∃ result,
     update_expense_form (λ _, None) (λ _, None) sample_today 1 (Some "") (Some "Lunch")
       None (Some 1) None sample_store_2 = (result, sample_store_2)
     ∧ (result = inr (TemplateResponse "error.html")
        ∨ result = inr (TemplateResponse "expenses/form.html")
        ∨ result = inl (AppException (EntityNotFoundException "Expense" (Some 1)))))
  ∧ (∃ result,
       update_expense_form (λ _, None) (λ _, None) sample_today 9 (Some "") (Some "Lunch")
         None (Some 1) None sample_store_2 = (result, sample_store_2)
       ∧ (result = inr (TemplateResponse "error.html")
          ∨ result = inl (AppException (EntityNotFoundException "Expense" (Some 9))))).
Proof.
  split.
  - apply (proj1 (update_expense_form_needs_every_field (λ _, None) (λ _, None) sample_today
                    1 (Some "") (Some "Lunch") None (Some 1) None sample_store_2)).
    left. by right.
  - apply (proj2 (update_expense_form_needs_every_field (λ _, None) (λ _, None) sample_today
                    9 (Some "") (Some "Lunch") None (Some 1) None sample_store_2)).
    compute_done.
Defined.
